(** * reestimate_polya_emissions: a shallow embedding and its properties

    The development follows [scripts/reestimate_polya_emissions.py]:
    TSV rows are read with fixed header names, a segmentation dictionary is
    built from the old segmentation file, every row of the new samples file
    is labelled with [region_search], the labelled samples are fitted and
    the fitted parameters (and, optionally, a benchmark) are printed.

    Python values are modelled as follows.
    - [int] is [Z].
    - [float] is a type [F] with the operations the script calls on it;
      the builtins [float()] and [int()], numpy, scipy and sklearn are not
      part of the repository, so they are interfaces (type classes) here.
      The instance on [R] reads them over the real numbers.
    - a [dict] is an association list in insertion order (the order
      [dict.keys()] iterates in), with distinct keys.
    - a raised exception is the [Raise] case of [result]; [print] appends
      a line to an output log. *)

From Stdlib Require Import List String Ascii ZArith Bool Lia.
From Stdlib Require Import Reals Lra.
Import ListNotations.

Local Open Scope string_scope.
Local Open Scope Z_scope.
Local Open Scope list_scope.

(** ** Exceptions *)

Inductive exn : Type :=
| ValueError
| TypeError
| OverflowError
| KeyError
| IndexError.

Inductive result (A : Type) : Type :=
| Ok (a : A)
| Raise (e : exn).

Arguments Ok {A} a.
Arguments Raise {A} e.

Definition bind {A B : Type} (c : result A) (k : A -> result B) : result B :=
  match c with
  | Ok a => k a
  | Raise e => Raise e
  end.

Notation "x <- c ;; k" := (bind c (fun x => k))
  (at level 61, c at next level, right associativity).

Definition is_ok {A : Type} (c : result A) : bool :=
  match c with
  | Ok _ => true
  | Raise _ => false
  end.

(** [for row in rdr: body]: the loop body threads the local state and may
    raise, which ends the loop and the function. *)
Fixpoint for_rows {S X : Type} (body : S -> X -> result S) (s : S) (rows : list X)
  : result S :=
  match rows with
  | [] => Ok s
  | r :: rest => s' <- body s r ;; for_rows body s' rest
  end.

(** ** csv.DictReader with [fieldnames]

    A row is the list of tab-separated fields of one line, as the reader
    yields them (it skips lines with no field at all).  [row[key]] is the
    field at the position of [key] in [fieldnames], and Python's [None]
    (the reader's [restval]) when the line is too short. *)

Definition row : Type := list string.

Fixpoint index_of (key : string) (fieldnames : list string) : option nat :=
  match fieldnames with
  | [] => None
  | name :: rest =>
      if String.eqb name key then Some O
      else option_map S (index_of key rest)
  end.

Definition row_get (fieldnames : list string) (r : row) (key : string)
  : option string :=
  match index_of key fieldnames with
  | Some i => nth_error r i
  | None => None
  end.

Definition samples_headers : list string :=
  ["tag"; "read_id"; "chr"; "idx"; "sample"; "scaled_sample";
   "s_llh"; "l_llh"; "a_llh"; "p_llh"; "c_llh"; "t_llh"; "region"].

Definition segmentation_headers : list string :=
  ["tag"; "read_id"; "pos"; "L_start"; "A_start"; "P_start"; "P_end";
   "rate"; "plen"; "alen"].

(** [row['region'] == 'START']: [None] equals no string. *)
Definition field_eqb (v : option string) (s : string) : bool :=
  match v with
  | Some x => String.eqb x s
  | None => false
  end.

(** ** The builtins [float] and [int] *)

Class Builtins (F : Type) : Type := {
  (** [float(s)] on a [str]; [None] is ValueError *)
  float_str : string -> option F;
  (** [int(s)] on a [str]; [None] is ValueError *)
  int_str : string -> option Z;
  (** [int(x)] on a [float]: truncation, raising on nan and the infinities *)
  int_float : F -> result Z
}.

Section Readers.

Context {F : Type} {builtins : Builtins F}.

(** [float(row[key])]: TypeError on [None], ValueError on a rejected string. *)
Definition py_float (v : option string) : result F :=
  match v with
  | None => Raise TypeError
  | Some s =>
      match float_str s with
      | Some x => Ok x
      | None => Raise ValueError
      end
  end.

(** [int(row[key])] *)
Definition py_int (v : option string) : result Z :=
  match v with
  | None => Raise TypeError
  | Some s =>
      match int_str s with
      | Some z => Ok z
      | None => Raise ValueError
      end
  end.

(** [int(float(row[key]))] *)
Definition py_int_float (v : option string) : result Z :=
  x <- py_float v ;; int_float x.

(** ** The segmentation dictionary *)

Record segment : Type := {
  L_start : Z;
  A_start : Z;
  P_start : Z;
  P_end : Z
}.

Definition segdict : Type := list (string * segment).

Definition dict_keys (d : segdict) : list string := map fst d.

(** [key in d.keys()] *)
Definition dict_mem (key : string) (d : segdict) : bool :=
  existsb (String.eqb key) (dict_keys d).

(** [d[key]], KeyError when absent *)
Fixpoint dict_getitem (d : segdict) (key : string) : result segment :=
  match d with
  | [] => Raise KeyError
  | (k, v) :: rest =>
      if String.eqb k key then Ok v else dict_getitem rest key
  end.

(** [d[key] = v]: replaces in place, or appends a new key at the end *)
Fixpoint dict_setitem (d : segdict) (key : string) (v : segment) : segdict :=
  match d with
  | [] => [(key, v)]
  | (k, w) :: rest =>
      if String.eqb k key then (k, v) :: rest
      else (k, w) :: dict_setitem rest key v
  end.

(** A Python dict never holds a key twice. *)
Definition dict_wf (d : segdict) : Prop := NoDup (dict_keys d).

(** The four conversions of one segmentation row, in source order. *)
Definition row_segment (r : row) : result segment :=
  l <- py_int_float (row_get segmentation_headers r "L_start") ;;
  a <- py_int_float (row_get segmentation_headers r "A_start") ;;
  p <- py_int_float (row_get segmentation_headers r "P_start") ;;
  e <- py_int_float (row_get segmentation_headers r "P_end") ;;
  Ok {| L_start := l; A_start := a; P_start := p; P_end := e |}.

(** The body of the loop of [make_segmentation_dict].  A line with a single
    field has [row['read_id'] = None]; [None] is in no dict built here, so
    Python goes on to [float(row['L_start'])], which is [float(None)] on
    such a line and raises TypeError (see [short_row_no_boundaries]). *)
Definition segmentation_body (segments : segdict) (r : row) : result segdict :=
  match row_get segmentation_headers r "read_id" with
  | None => Raise TypeError
  | Some read_id =>
      if negb (dict_mem read_id segments) then
        seg <- row_segment r ;;
        Ok (dict_setitem segments read_id seg)
      else Ok segments
  end.

Definition make_segmentation_dict (rows : list row) : result segdict :=
  for_rows segmentation_body [] rows.

(** ** region_search *)

(** The integer labels of the docstring of [region_search]. *)
Definition START : Z := 0.
Definition LEADER : Z := 1.
Definition ADAPTER : Z := 2.
Definition POLYA : Z := 3.
Definition TRANSCRIPT : Z := 5.
Definition UNKNOWN : Z := 6.

(** [long_read_id[0:len(read_id)] == read_id] *)
Definition key_matches (read_id long_read_id : string) : bool :=
  String.eqb (substring 0 (String.length read_id) long_read_id) read_id.

(** The scan over [segmentations.keys()]; [read_key] starts as [None] and is
    overwritten at every matching key. *)
Fixpoint find_read_key (read_id : string) (keys : list string)
  (read_key : option string) : option string :=
  match keys with
  | [] => read_key
  | long_read_id :: rest =>
      if key_matches read_id long_read_id
      then find_read_key read_id rest (Some long_read_id)
      else find_read_key read_id rest read_key
  end.

(** The five comparisons and the final [return 6]. *)
Definition region_of (seg : segment) (sample_ix : Z) : Z :=
  let l_start := L_start seg in
  let a_start := A_start seg in
  let p_start := P_start seg in
  let p_end := P_end seg in
  if sample_ix <? l_start then 0
  else if sample_ix <? a_start then 1
  else if sample_ix <? p_start then 2
  else if sample_ix <=? p_end then 3
  else if sample_ix >? p_end then 5
  else 6.

Definition region_search (read_id : string) (sample_ix : Z)
  (segmentations : segdict) : result Z :=
  match find_read_key read_id (dict_keys segmentations) None with
  | None => Ok 6
  | Some read_key =>
      seg <- dict_getitem segmentations read_key ;;
      Ok (region_of seg sample_ix)
  end.

(** ** new_tsv_to_numpy *)

Record new_data : Type := {
  S_samples : list F;
  L_samples : list F;
  A_samples : list F;
  P_samples : list F;
  T_samples : list F
}.

Definition empty_new_data : new_data :=
  {| S_samples := []; L_samples := []; A_samples := [];
     P_samples := []; T_samples := [] |}.

(** The five [if region == n: X_samples.append(scaled_sample)] statements;
    all five tests run, in this order. *)
Definition append_by_region (d : new_data) (region : Z) (scaled_sample : F)
  : new_data :=
  let d := if region =? 0
           then {| S_samples := S_samples d ++ [scaled_sample];
                   L_samples := L_samples d; A_samples := A_samples d;
                   P_samples := P_samples d; T_samples := T_samples d |}
           else d in
  let d := if region =? 1
           then {| S_samples := S_samples d;
                   L_samples := L_samples d ++ [scaled_sample];
                   A_samples := A_samples d;
                   P_samples := P_samples d; T_samples := T_samples d |}
           else d in
  let d := if region =? 2
           then {| S_samples := S_samples d; L_samples := L_samples d;
                   A_samples := A_samples d ++ [scaled_sample];
                   P_samples := P_samples d; T_samples := T_samples d |}
           else d in
  let d := if region =? 3
           then {| S_samples := S_samples d; L_samples := L_samples d;
                   A_samples := A_samples d;
                   P_samples := P_samples d ++ [scaled_sample];
                   T_samples := T_samples d |}
           else d in
  if region =? 5
  then {| S_samples := S_samples d; L_samples := L_samples d;
          A_samples := A_samples d; P_samples := P_samples d;
          T_samples := T_samples d ++ [scaled_sample] |}
  else d.

(** What one row of the new samples file is classified as: the conversions
    of the loop body in source order, then [region_search].  [row['read_id']]
    is [None] only on a line too short to have a [scaled_sample], where
    [float(None)] has raised already (see [scaled_sample_has_read_id]). *)
Definition row_region (segmentations : segdict) (r : row) : result (F * Z) :=
  scaled_sample <- py_float (row_get samples_headers r "scaled_sample") ;;
  match row_get samples_headers r "read_id" with
  | None => Raise TypeError
  | Some read =>
      index <- py_int (row_get samples_headers r "idx") ;;
      region <- region_search read index segmentations ;;
      Ok (scaled_sample, region)
  end.

Definition new_tsv_body (segmentations : segdict) (d : new_data) (r : row)
  : result new_data :=
  sr <- row_region segmentations r ;;
  Ok (append_by_region d (snd sr) (fst sr)).

Definition new_tsv_to_numpy (rows : list row) (segmentations : segdict)
  : result new_data :=
  for_rows (new_tsv_body segmentations) empty_new_data rows.

(** ** old_tsv_to_numpy *)

Record old_data : Type := {
  S_loglkhd : list F;
  L_loglkhd : list F;
  A_loglkhd : list F;
  P_loglkhd : list F;
  T_loglkhd : list F
}.

Definition empty_old_data : old_data :=
  {| S_loglkhd := []; L_loglkhd := []; A_loglkhd := [];
     P_loglkhd := []; T_loglkhd := [] |}.

Definition old_tsv_body (d : old_data) (r : row) : result old_data :=
  s_llh <- py_float (row_get samples_headers r "s_llh") ;;
  l_llh <- py_float (row_get samples_headers r "l_llh") ;;
  a_llh <- py_float (row_get samples_headers r "a_llh") ;;
  p_llh <- py_float (row_get samples_headers r "p_llh") ;;
  t_llh <- py_float (row_get samples_headers r "t_llh") ;;
  let region := row_get samples_headers r "region" in
  let d := if field_eqb region "START"
           then {| S_loglkhd := S_loglkhd d ++ [s_llh];
                   L_loglkhd := L_loglkhd d; A_loglkhd := A_loglkhd d;
                   P_loglkhd := P_loglkhd d; T_loglkhd := T_loglkhd d |}
           else d in
  let d := if field_eqb region "LEADER"
           then {| S_loglkhd := S_loglkhd d;
                   L_loglkhd := L_loglkhd d ++ [l_llh];
                   A_loglkhd := A_loglkhd d;
                   P_loglkhd := P_loglkhd d; T_loglkhd := T_loglkhd d |}
           else d in
  let d := if field_eqb region "ADAPTER"
           then {| S_loglkhd := S_loglkhd d; L_loglkhd := L_loglkhd d;
                   A_loglkhd := A_loglkhd d ++ [a_llh];
                   P_loglkhd := P_loglkhd d; T_loglkhd := T_loglkhd d |}
           else d in
  let d := if field_eqb region "POLYA"
           then {| S_loglkhd := S_loglkhd d; L_loglkhd := L_loglkhd d;
                   A_loglkhd := A_loglkhd d;
                   P_loglkhd := P_loglkhd d ++ [p_llh];
                   T_loglkhd := T_loglkhd d |}
           else d in
  let d := if field_eqb region "TRANSCRIPT"
           then {| S_loglkhd := S_loglkhd d; L_loglkhd := L_loglkhd d;
                   A_loglkhd := A_loglkhd d; P_loglkhd := P_loglkhd d;
                   T_loglkhd := T_loglkhd d ++ [t_llh] |}
           else d in
  Ok d.

Definition old_tsv_to_numpy (rows : list row) : result old_data :=
  for_rows old_tsv_body empty_old_data rows.

End Readers.

(** ** numpy, scipy.stats.norm and sklearn.mixture

    The numerical routines the script calls.  An array of shape (N,) is a
    list; an operation on an array is the scalar operation on each element. *)

Class Numeric (F : Type) : Type := {
  (** [np.mean] of a one-dimensional array *)
  np_mean : list F -> F;
  np_sqrt : F -> F;
  np_log : F -> F;
  f_add : F -> F -> F;
  f_sub : F -> F -> F;
  f_mul : F -> F -> F;
  (** [norm.pdf(x, loc, scale)] and [norm.logpdf(x, loc, scale)] at a point *)
  norm_pdf : F -> F -> F -> F;
  norm_logpdf : F -> F -> F -> F
}.

(** The fitted attributes of a [GaussianMixture] that [fit_gmm] reads. *)
Record GaussianMixture (F : Type) : Type := {
  weights_ : list F;
  means_ : list (list F);
  covariances_ : list (list (list F))
}.

Arguments weights_ {F} _.
Arguments means_ {F} _.
Arguments covariances_ {F} _.

Class Sklearn (F : Type) : Type := {
  (** [GaussianMixture(n_components=n).fit(samples.reshape(-1,1))] *)
  gmm_fit : nat -> list F -> result (GaussianMixture F)
}.

(** [xs[i]], IndexError out of range *)
Definition getitem {A : Type} (xs : list A) (i : nat) : result A :=
  match nth_error xs i with
  | Some x => Ok x
  | None => Raise IndexError
  end.

(** [[f(c) for c in cs]] where [f] may raise *)
Fixpoint comprehension {A B : Type} (f : A -> result B) (cs : list A)
  : result (list B) :=
  match cs with
  | [] => Ok []
  | c :: rest => b <- f c ;; bs <- comprehension f rest ;; Ok (b :: bs)
  end.

(** ** Printed lines

    [print(fmt.format(...))] is recorded as the format it uses together
    with its arguments. *)

Inductive line (F : Type) : Type :=
| Text (s : string)
    (** a literal message *)
| GaussianParams (name : string) (mu var stdv : F)
    (** "New params for NAME: mu = {0}, var = {1}, stdv = {2}" *)
| MixtureParams (name : string) (pi mu var stdv : F)
    (** "New params for NAME: pi = {0}, mu = {1}, var = {2}, stdv = {3}" *)
| AvgLogLikelihood (old new : F)
    (** "> Old avg. log-likelihood: {0} | New avg. log-likelihood: {1}" *).

Arguments Text {F} s.
Arguments GaussianParams {F} name mu var stdv.
Arguments MixtureParams {F} name pi mu var stdv.
Arguments AvgLogLikelihood {F} old new.

(** A run: what was printed, and how the run ended. *)
Definition run (F A : Type) : Type := (list (line F) * result A)%type.

Definition run_bind {F A B : Type} (c : run F A) (k : A -> run F B) : run F B :=
  match c with
  | (out, Ok a) => let (out', r) := k a in ((out ++ out')%list, r)
  | (out, Raise e) => (out, Raise e)
  end.

Definition print {F : Type} (l : line F) : run F unit := ([l], Ok tt).
Definition call {F A : Type} (c : result A) : run F A := ([], c).
Definition ret {F A : Type} (a : A) : run F A := ([], Ok a).

Notation "x <~ c ;; k" := (run_bind c (fun x => k))
  (at level 61, c at next level, right associativity).
Notation "c ;;; k" := (run_bind c (fun _ => k))
  (at level 61, right associativity).

Section Fitting.

Context {F : Type} {builtins : Builtins F} {numeric : Numeric F}
        {sklearn : Sklearn F}.

(** [scipy.stats.norm.fit(data)] with neither [floc] nor [fscale] given
    (library code, transcribed from scipy): [loc = data.mean()] and
    [scale = np.sqrt(((data - loc)**2).mean())].  The scale of a normal
    distribution is its standard deviation.  Recent scipy versions first
    raise ValueError on data holding nan or an infinity; that test is left
    out. *)
Definition norm_fit (data : list F) : F * F :=
  let loc := np_mean data in
  let scale :=
    np_sqrt (np_mean (map (fun x => f_mul (f_sub x loc) (f_sub x loc)) data)) in
  (loc, scale).

Definition fit_gaussian (samples : list F) : F * F :=
  let (mu, sigma) := norm_fit samples in
  (mu, sigma).

Definition fit_gmm (samples : list F) (ncomponents : nat)
  : result (list (F * F * F)) :=
  gmm <- gmm_fit ncomponents samples ;;
  comprehension
    (fun c =>
       w <- getitem (weights_ gmm) c ;;
       m <- getitem (means_ gmm) c ;;
       m0 <- getitem m 0 ;;
       cv <- getitem (covariances_ gmm) c ;;
       cv0 <- getitem cv 0 ;;
       cv00 <- getitem cv0 0 ;;
       Ok (w, m0, cv00))
    (seq 0 ncomponents).

(** [(a, b, c), (d, e, f) = fit_gmm(..., ncomponents=2)]: unpacking a list
    that has not exactly two elements raises ValueError. *)
Definition unpack2 (params : list (F * F * F))
  : result ((F * F * F) * (F * F * F)) :=
  match params with
  | [c0; c1] => Ok (c0, c1)
  | _ => Raise ValueError
  end.

(** [np.mean(norm.logpdf(samples, loc=mu, scale=np.sqrt(sigma)))] *)
Definition gaussian_avg_llh (samples : list F) (mu sigma : F) : F :=
  np_mean (map (fun x => norm_logpdf x mu (np_sqrt sigma)) samples).

(** Array operations used by the mixture benchmark. *)
Definition arr_scale (w : F) (xs : list F) : list F := map (f_mul w) xs.
Definition arr_pdf (xs : list F) (loc scale : F) : list F :=
  map (fun x => norm_pdf x loc scale) xs.
Definition arr_log (xs : list F) : list F := map np_log xs.
Fixpoint arr_add (xs ys : list F) : list F :=
  match xs, ys with
  | x :: xs', y :: ys' => f_add x y :: arr_add xs' ys'
  | _, _ => []
  end.

(** Lines 265-267 (ADAPTER) and 277-279 (TRANSCRIPT):
    [llh0 = pi0 * norm.pdf(samples, loc=mu0, scale=np.sqrt(sig0))],
    [llh1 = pi1 * norm.pdf(samples, loc=mu1, scale=np.sqrt(sig1))],
    [np.mean(np.log(llh0 + llh1))]. *)
Definition mixture_avg_llh (samples : list F) (c0 c1 : F * F * F) : F :=
  let '(pi0, mu0, sig0) := c0 in
  let '(pi1, mu1, sig1) := c1 in
  let llh0 := arr_scale pi0 (arr_pdf samples mu0 (np_sqrt sig0)) in
  let llh1 := arr_scale pi1 (arr_pdf samples mu1 (np_sqrt sig1)) in
  np_mean (arr_log (arr_add llh0 llh1)).

(** The benchmark part of [main], after [if not benchmark: return]. *)
Definition benchmark_report (old : old_data) (new : new_data)
  (gS gL gP : F * F) (mA mT : (F * F * F) * (F * F * F)) : run F unit :=
  print (Text "===== Emission Log-Likelihood Benchmarks =====") ;;;
  let old_S_llh := np_mean (S_loglkhd old) in
  let new_S_llh := gaussian_avg_llh (S_samples new) (fst gS) (snd gS) in
  print (Text "> Average START log-probs:") ;;;
  print (AvgLogLikelihood old_S_llh new_S_llh) ;;;
  let old_L_llh := np_mean (L_loglkhd old) in
  let new_L_llh := gaussian_avg_llh (L_samples new) (fst gL) (snd gL) in
  print (Text "> Average LEADER log-probs:") ;;;
  print (AvgLogLikelihood old_L_llh new_L_llh) ;;;
  let old_A_llh := np_mean (A_loglkhd old) in
  let new_A_llh := mixture_avg_llh (A_samples new) (fst mA) (snd mA) in
  print (Text "> Average ADAPTER log-probs:") ;;;
  print (AvgLogLikelihood old_A_llh new_A_llh) ;;;
  let old_P_llh := np_mean (P_loglkhd old) in
  let new_P_llh := gaussian_avg_llh (P_samples new) (fst gP) (snd gP) in
  print (Text "> Average POLYA log-probs:") ;;;
  print (AvgLogLikelihood old_P_llh new_P_llh) ;;;
  let old_T_llh := np_mean (T_loglkhd old) in
  let new_T_llh := mixture_avg_llh (T_samples new) (fst mT) (snd mT) in
  print (Text "> Average TRANSCRIPT log-probs:") ;;;
  print (AvgLogLikelihood old_T_llh new_T_llh).

(** The seven "New params for ..." lines of [main]. *)
Definition params_report (gS gL gP : F * F)
  (mA mT : (F * F * F) * (F * F * F)) : list (line F) :=
  let '(new_mu_S, new_sigma_S) := gS in
  let '(new_mu_L, new_sigma_L) := gL in
  let '((new_pi0_A, new_mu0_A, new_sig0_A), (new_pi1_A, new_mu1_A, new_sig1_A)) := mA in
  let '(new_mu_P, new_sigma_P) := gP in
  let '((new_pi0_T, new_mu0_T, new_sig0_T), (new_pi1_T, new_mu1_T, new_sig1_T)) := mT in
  [ GaussianParams "START" new_mu_S new_sigma_S (np_sqrt new_sigma_S);
    GaussianParams "LEADER" new_mu_L new_sigma_L (np_sqrt new_sigma_L);
    MixtureParams "ADAPTER0" new_pi0_A new_mu0_A new_sig0_A (np_sqrt new_sig0_A);
    MixtureParams "ADAPTER1" new_pi1_A new_mu1_A new_sig1_A (np_sqrt new_sig1_A);
    GaussianParams "POLYA" new_mu_P new_sigma_P (np_sqrt new_sigma_P);
    MixtureParams "TRANSCR0" new_pi0_T new_mu0_T new_sig0_T (np_sqrt new_sig0_T);
    MixtureParams "TRANSCR1" new_pi1_T new_mu1_T new_sig1_T (np_sqrt new_sig1_T) ].

(** [main]; the three files are given as the rows read from them. *)
Definition main (old_samples_tsv old_segmentations_tsv new_samples_tsv : list row)
  (benchmark : bool) : run F unit :=
  print (Text "Loading data from TSV...") ;;;
  old <~ call (old_tsv_to_numpy old_samples_tsv) ;;
  segmentations <~ call (make_segmentation_dict old_segmentations_tsv) ;;
  new <~ call (new_tsv_to_numpy new_samples_tsv segmentations) ;;
  print (Text "... Datasets loaded.") ;;;
  print (Text "Fitting gaussians to new scaled samples (this may take a while)...") ;;;
  let gS := fit_gaussian (S_samples new) in
  let gL := fit_gaussian (L_samples new) in
  mA <~ call (ps <- fit_gmm (A_samples new) 2 ;; unpack2 ps) ;;
  let gP := fit_gaussian (P_samples new) in
  mT <~ call (ps <- fit_gmm (T_samples new) 2 ;; unpack2 ps) ;;
  (params_report gS gL gP mA mT, Ok tt) ;;;
  if negb benchmark then ret tt
  else benchmark_report old new gS gL gP mA mT.

(** [parser.add_argument("--benchmark", default=True, type=bool)]: without
    the option the value is the default; with it, [bool] is applied to the
    argument string, and [bool(s)] is [s != ''] on a [str]. *)
Definition py_bool_str (s : string) : bool := negb (String.eqb s "").

Definition args_benchmark (option_value : option string) : bool :=
  match option_value with
  | None => true
  | Some s => py_bool_str s
  end.

(** The [__main__] block, for files that exist. *)
Definition cli (old_samples_tsv segmentation_tsv new_samples_tsv : list row)
  (benchmark_option : option string) : run F unit :=
  main old_samples_tsv segmentation_tsv new_samples_tsv
       (args_benchmark benchmark_option).

End Fitting.

(** ** The instance on the real numbers

    Floats are read as real numbers: nan and the infinities are not
    represented, and arithmetic is exact. *)

Module RealModel.

Local Open Scope R_scope.

(** Signed decimal integer literals: an optional '-' and one or more ASCII
    digits.  [float] and [int] accept these with the value computed here;
    they also accept other spellings (surrounding blanks, '+', underscores,
    and for [float] fractions, exponents, "nan" and "inf"), which this
    parser rejects, so concrete runs only use strings on which it agrees
    with the builtins. *)
Definition digit_of (c : ascii) : option Z :=
  let n := nat_of_ascii c in
  if (48 <=? n)%nat && (n <=? 57)%nat then Some (Z.of_nat (n - 48)) else None.

Fixpoint digits (s : string) (acc : Z) : option Z :=
  match s with
  | EmptyString => Some acc
  | String c rest =>
      match digit_of c with
      | Some d => digits rest (10 * acc + d)%Z
      | None => None
      end
  end.

Definition decimal (s : string) : option Z :=
  match s with
  | EmptyString => None
  | String "-"%char EmptyString => None
  | String "-"%char rest => option_map Z.opp (digits rest 0%Z)
  | _ => digits s 0%Z
  end.

(** [int(x)] rounds towards zero. *)
Definition Rtrunc (x : R) : Z :=
  if Rle_dec 0 x then Int_part x else (- Int_part (- x))%Z.

#[export] Instance builtins_R : Builtins R := {
  float_str s := option_map IZR (decimal s);
  int_str := decimal;
  int_float x := Ok (Rtrunc x)
}.

Definition Rsum (xs : list R) : R := fold_right Rplus 0 xs.

#[export] Instance numeric_R : Numeric R := {
  np_mean xs := Rsum xs / INR (List.length xs);
  np_sqrt := sqrt;
  np_log := ln;
  f_add := Rplus;
  f_sub := Rminus;
  f_mul := Rmult;
  norm_pdf x loc scale :=
    exp (- (((x - loc) / scale) * ((x - loc) / scale)) / 2)
    / (sqrt (2 * PI) * scale);
  norm_logpdf x loc scale :=
    - (((x - loc) / scale) * ((x - loc) / scale)) / 2
    - ln (sqrt (2 * PI)) - ln scale
}.

(** A mixture backend for concrete runs.  sklearn's fit depends on its
    random initialisation; this one returns the stationary point of
    expectation-maximisation in which every component is the
    single-Gaussian fit, with equal weights, and like sklearn it raises
    ValueError when there are fewer samples than components. *)
#[export] Instance sklearn_R : Sklearn R := {
  gmm_fit n samples :=
    if (List.length samples <? n)%nat then Raise ValueError
    else
      let m := np_mean samples in
      let v := np_mean (map (fun x => (x - m) * (x - m)) samples) in
      Ok {| weights_ := repeat (/ INR n) n;
            means_ := repeat [m] n;
            covariances_ := repeat [[v]] n |}
}.

(** The maximum-likelihood variance of a sample: the mean squared deviation
    from the sample mean. *)
Definition ml_mean (xs : list R) : R := Rsum xs / INR (List.length xs).

Definition ml_variance (xs : list R) : R :=
  Rsum (map (fun x => (x - ml_mean xs) * (x - ml_mean xs)) xs)
  / INR (List.length xs).

End RealModel.

Import RealModel.

(** ** Vocabulary of the statements *)

(** [read_id] is what [long_read_id] starts with. *)
Definition is_prefix (read_id long_read_id : string) : Prop :=
  substring 0 (String.length read_id) long_read_id = read_id.

(** [k] is the last key of [keys], in iteration order, that starts with
    [read_id]. *)
Definition last_match (read_id : string) (keys : list string) (k : string) : Prop :=
  exists before after,
    keys = before ++ k :: after
    /\ is_prefix read_id k
    /\ Forall (fun k' => ~ is_prefix read_id k') after.

Section Vocabulary.

Context {F : Type} {builtins : Builtins F} {numeric : Numeric F}
        {sklearn : Sklearn F}.

(** [row['read_id']] of a segmentation row *)
Definition seg_read_id (r : row) : option string :=
  row_get segmentation_headers r "read_id".

(** [r] is the first row of [rows] whose read identifier is [id]. *)
Definition first_row_with (id : string) (rows : list row) (r : row) : Prop :=
  exists before after,
    rows = before ++ r :: after
    /\ seg_read_id r = Some id
    /\ forall r', In r' before -> seg_read_id r' <> Some id.

(** The summed sizes of the five collections. *)
Definition total_samples (d : new_data (F:=F)) : nat :=
  (List.length (S_samples d) + List.length (L_samples d)
   + List.length (A_samples d) + List.length (P_samples d)
   + List.length (T_samples d))%nat.

(** Whether a row is classified [region]. *)
Definition classified (segmentations : segdict) (region : Z) (r : row) : bool :=
  match row_region segmentations r with
  | Ok (_, z) => z =? region
  | Raise _ => false
  end.

(** The number of rows classified [region]. *)
Definition count_region (segmentations : segdict) (region : Z)
  (rows : list row) : nat :=
  List.length (filter (classified segmentations region) rows).

(** The logarithm of the mixture density at a point: the weighted
    component densities are added, then [np.log] is taken. *)
Definition log_mixture_density (c0 c1 : F * F * F) (x : F) : F :=
  let '(pi0, mu0, sig0) := c0 in
  let '(pi1, mu1, sig1) := c1 in
  np_log (f_add (f_mul pi0 (norm_pdf x mu0 (np_sqrt sig0)))
                (f_mul pi1 (norm_pdf x mu1 (np_sqrt sig1)))).

(** The two mixture fits of [main], unpacked. *)
Definition fit_mixture2 (samples : list F)
  : result ((F * F * F) * (F * F * F)) :=
  ps <- fit_gmm samples 2 ;; unpack2 ps.

End Vocabulary.

(** Fields the readers convert, and rows holding a string that the
    conversion rejects in one of them. *)
Definition old_converted_fields : list string :=
  ["s_llh"; "l_llh"; "a_llh"; "p_llh"; "t_llh"].

Definition boundary_fields : list string :=
  ["L_start"; "A_start"; "P_start"; "P_end"].

Definition rejected_float {F : Type} {builtins : Builtins F}
  (v : option string) : Prop :=
  exists s, v = Some s /\ float_str (F:=F) s = None.

Definition rejected_int {F : Type} {builtins : Builtins F}
  (v : option string) : Prop :=
  exists s, v = Some s /\ int_str (F:=F) s = None.

Definition old_row_rejected {F : Type} {builtins : Builtins F} (r : row) : Prop :=
  exists key,
    In key old_converted_fields
    /\ rejected_float (F:=F) (row_get samples_headers r key).

Definition new_row_rejected {F : Type} {builtins : Builtins F} (r : row) : Prop :=
  rejected_float (F:=F) (row_get samples_headers r "scaled_sample")
  \/ rejected_int (F:=F) (row_get samples_headers r "idx").

Definition seg_row_rejected {F : Type} {builtins : Builtins F} (r : row) : Prop :=
  exists key,
    In key boundary_fields
    /\ rejected_float (F:=F) (row_get segmentation_headers r key).

(** The three reader calls of [main], in order. *)
Definition load {F : Type} {builtins : Builtins F}
  (old_rows seg_rows new_rows : list row)
  : result (old_data (F:=F) * segdict * new_data (F:=F)) :=
  old <- old_tsv_to_numpy old_rows ;;
  segmentations <- make_segmentation_dict seg_rows ;;
  new <- new_tsv_to_numpy new_rows segmentations ;;
  Ok (old, segmentations, new).

(** The three messages [main] prints before the parameter lines. *)
Definition loading_line {F : Type} : line F := Text "Loading data from TSV...".

Definition progress_lines {F : Type} : list (line F) :=
  [ loading_line;
    Text "... Datasets loaded.";
    Text "Fitting gaussians to new scaled samples (this may take a while)..." ].

(** A "New params for ..." line. *)
Definition is_param_line {F : Type} (l : line F) : bool :=
  match l with
  | GaussianParams _ _ _ _ => true
  | MixtureParams _ _ _ _ _ => true
  | _ => false
  end.

(** A line of the benchmark: its banner, a "> Average ... log-probs:"
    heading or a pair of average log-likelihoods. *)
Definition is_benchmark_line {F : Type} (l : line F) : bool :=
  match l with
  | AvgLogLikelihood _ _ => true
  | Text s => String.prefix "=====" s || String.prefix "> Average" s
  | _ => false
  end.

(** The NAME of a "New params for NAME" line. *)
Definition line_name {F : Type} (l : line F) : option string :=
  match l with
  | GaussianParams name _ _ _ => Some name
  | MixtureParams name _ _ _ _ => Some name
  | _ => None
  end.

(** ** Concrete data *)

Module Examples.

Definition seg_10_20_30_50 : segment :=
  {| L_start := 10; A_start := 20; P_start := 30; P_end := 50 |}.

Definition seg_100_200_300_500 : segment :=
  {| L_start := 100; A_start := 200; P_start := 300; P_end := 500 |}.

(** One read. *)
Definition one_read : segdict := [("read1", seg_10_20_30_50)].

(** Two reads, the first identifier being the start of the second. *)
Definition shadowed : segdict :=
  [("ab", seg_10_20_30_50); ("abc", seg_100_200_300_500)].

(** Two reads that share a prefix which is no key itself. *)
Definition shared_prefix : segdict :=
  [("abX", seg_10_20_30_50); ("abY", seg_100_200_300_500)].

(** The dictionary built from [seg_rows]. *)
Definition two_reads : segdict :=
  [("r1", seg_10_20_30_50); ("r2", seg_100_200_300_500)].

Definition seg_row (read_id l a p e : string) : row :=
  ["polya-segmentation"; read_id; "0"; l; a; p; e; "1"; "2"; "3"].

(** Two reads, and a second row for the first read whose boundaries are
    not numbers. *)
Definition seg_rows : list row :=
  [ seg_row "r1" "10" "20" "30" "50";
    seg_row "r2" "100" "200" "300" "500";
    seg_row "r1" "x" "y" "z" "w" ].

Definition sample_row (read_id idx sample scaled_sample llh region : string)
  : row :=
  ["polya-samples"; read_id; "chr1"; idx; sample; scaled_sample;
   llh; llh; llh; llh; llh; llh; region].

(** Rows of a new samples file: seven samples of read "r1" and one of a read
    that has no segmentation. *)
Definition new_rows : list row :=
  [ sample_row "r1" "5" "80" "81" "-1" "START";
    sample_row "r1" "15" "90" "91" "-1" "START";
    sample_row "r1" "25" "100" "101" "-1" "LEADER";
    sample_row "r1" "26" "102" "103" "-1" "LEADER";
    sample_row "r1" "30" "110" "111" "-1" "ADAPTER";
    sample_row "r1" "51" "120" "121" "-1" "POLYA";
    sample_row "r1" "52" "122" "123" "-1" "POLYA";
    sample_row "zz" "7" "60" "61" "-1" "TRANSCRIPT" ].

(** Rows of an old samples file, one per region. *)
Definition old_rows : list row :=
  [ sample_row "r1" "5" "80" "81" "-1" "START";
    sample_row "r1" "15" "90" "91" "-2" "LEADER";
    sample_row "r1" "25" "100" "101" "-3" "ADAPTER";
    sample_row "r1" "30" "110" "111" "-4" "POLYA";
    sample_row "r1" "51" "120" "121" "-5" "TRANSCRIPT" ].

(** A samples row whose raw [sample] and [c_llh] fields are not numbers;
    every other numeric field is. *)
Definition row_bad_sample : row :=
  ["polya-samples"; "r1"; "chr1"; "5"; "abc"; "81";
   "-1"; "-1"; "-1"; "-1"; "xyz"; "-1"; "START"].

(** A samples row whose [s_llh] field is not a number. *)
Definition row_bad_s_llh : row :=
  ["polya-samples"; "r1"; "chr1"; "5"; "80"; "81";
   "abc"; "-1"; "-1"; "-1"; "-1"; "-1"; "START"].

End Examples.

(** ** Vocabulary of the further properties *)

Section ReaderVocabulary.

Context {F : Type} {builtins : Builtins F}.

(** The field [key] of a samples row is present and [float] accepts it. *)
Definition converts_float (r : row) (key : string) : Prop :=
  exists s x,
    row_get samples_headers r key = Some s /\ float_str (F:=F) s = Some x.

(** The field [key] of a samples row is present and [int] accepts it. *)
Definition converts_int (r : row) (key : string) : Prop :=
  exists s z,
    row_get samples_headers r key = Some s /\ int_str (F:=F) s = Some z.

(** The converted field [key] of a samples row, when there is one. *)
Definition float_field (r : row) (key : string) : list F :=
  match row_get samples_headers r key with
  | Some s =>
      match float_str s with
      | Some x => [x]
      | None => []
      end
  | None => []
  end.

(** The column [key] of the rows whose region field is [label], in file
    order. *)
Definition column_of_region (key label : string) (rows : list row) : list F :=
  flat_map
    (fun r =>
       if field_eqb (row_get samples_headers r "region") label
       then float_field r key
       else [])
    rows.

(** The scaled samples of the rows classified [region], in file order. *)
Definition samples_of_region (segmentations : segdict) (region : Z)
  (rows : list row) : list F :=
  flat_map
    (fun r =>
       match row_region segmentations r with
       | Ok (x, z) => if z =? region then [x] else []
       | Raise _ => []
       end)
    rows.

(** Two samples rows with the same read identifier, index and scaled
    sample. *)
Definition same_sample (r r' : row) : Prop :=
  row_get samples_headers r "read_id" = row_get samples_headers r' "read_id"
  /\ row_get samples_headers r "idx" = row_get samples_headers r' "idx"
  /\ row_get samples_headers r "scaled_sample"
     = row_get samples_headers r' "scaled_sample".

End ReaderVocabulary.

(** The identifiers of [ids] that are not in [seen], each at its first
    occurrence. *)
Fixpoint first_occurrences (seen ids : list string) : list string :=
  match ids with
  | [] => []
  | id :: rest =>
      if existsb (String.eqb id) seen
      then first_occurrences seen rest
      else id :: first_occurrences (seen ++ [id]) rest
  end.

(** The rows of a segmentation file without those whose read identifier is
    in [seen] or occurs in an earlier row. *)
Fixpoint drop_seen (seen : list string) (rows : list row) : list row :=
  match rows with
  | [] => []
  | r :: rest =>
      match seg_read_id r with
      | None => r :: drop_seen seen rest
      | Some id =>
          if existsb (String.eqb id) seen
          then drop_seen seen rest
          else r :: drop_seen (seen ++ [id]) rest
      end
  end.

Module MoreExamples.

(** The rows of [Examples.new_rows] with other raw samples, other
    log-likelihoods and other region fields. *)
Definition new_rows_relabelled : list row :=
  [ Examples.sample_row "r1" "5" "0" "81" "-9" "TRANSCRIPT";
    Examples.sample_row "r1" "15" "0" "91" "-9" "TRANSCRIPT";
    Examples.sample_row "r1" "25" "0" "101" "-9" "junk";
    Examples.sample_row "r1" "26" "0" "103" "-9" "POLYA";
    Examples.sample_row "r1" "30" "0" "111" "-9" "START";
    Examples.sample_row "r1" "51" "0" "121" "-9" "START";
    Examples.sample_row "r1" "52" "0" "123" "-9" "LEADER";
    Examples.sample_row "zz" "7" "0" "61" "-9" "ADAPTER" ].

End MoreExamples.

(** * Properties *)

(** ** The result monad and the row loop *)

Lemma bind_ok_inv {A B : Type} (c : result A) (k : A -> result B) (b : B) :
  bind c k = Ok b -> exists a, c = Ok a /\ k a = Ok b.
Proof.
  destruct c as [a|e]; simpl; intros H; [exists a; split; [reflexivity|exact H] | discriminate].
Qed.

Lemma for_rows_app {S X : Type} (body : S -> X -> result S) (rows1 rows2 : list X) :
  forall s,
    for_rows body s (rows1 ++ rows2)
    = (s' <- for_rows body s rows1 ;; for_rows body s' rows2).
Proof.
  induction rows1 as [|r rows1 IH]; intros s; simpl.
  - reflexivity.
  - destruct (body s r) as [s1|e]; simpl; [apply IH | reflexivity].
Qed.

(** ** Key scan of [region_search] *)

Lemma key_matches_iff (read_id k : string) :
  key_matches read_id k = true <-> is_prefix read_id k.
Proof. unfold key_matches, is_prefix. apply String.eqb_eq. Qed.

Lemma key_matches_false_iff (read_id k : string) :
  key_matches read_id k = false <-> ~ is_prefix read_id k.
Proof.
  rewrite <- key_matches_iff. destruct (key_matches read_id k); split; congruence.
Qed.

Lemma is_prefix_stdlib (read_id k : string) :
  is_prefix read_id k <-> String.prefix read_id k = true.
Proof. unfold is_prefix. symmetry. apply prefix_correct. Qed.

Lemma is_prefix_refl (s : string) : is_prefix s s.
Proof.
  unfold is_prefix. induction s as [|c s IH]; simpl; [reflexivity | now rewrite IH].
Qed.

Lemma is_prefix_empty (k : string) : is_prefix "" k.
Proof. unfold is_prefix. destruct k; reflexivity. Qed.

(** [read_id] starts [k] exactly when [k] is [read_id] followed by
    something. *)
Lemma is_prefix_append (read_id k : string) :
  is_prefix read_id k <-> exists rest, k = (read_id ++ rest)%string.
Proof.
  unfold is_prefix. revert k.
  induction read_id as [|c read_id IH]; intros k; simpl.
  - split; [intros _; now exists k | intros _; destruct k; reflexivity].
  - destruct k as [|c' k]; simpl.
    + split; [discriminate | intros (rest & H); discriminate].
    + split.
      * intros [= -> H]. apply IH in H. destruct H as (rest & ->).
        now exists rest.
      * intros (rest & [= -> ->]). f_equal. apply IH. now exists rest.
Qed.

Lemma find_read_key_app (read_id : string) (keys1 keys2 : list string) :
  forall acc,
    find_read_key read_id (keys1 ++ keys2) acc
    = find_read_key read_id keys2 (find_read_key read_id keys1 acc).
Proof.
  induction keys1 as [|k keys1 IH]; intros acc; simpl; [reflexivity|].
  destruct (key_matches read_id k); apply IH.
Qed.

Lemma find_read_key_no_match (read_id : string) (keys : list string) :
  Forall (fun k => ~ is_prefix read_id k) keys ->
  forall acc, find_read_key read_id keys acc = acc.
Proof.
  induction 1 as [|k keys Hk _ IH]; intros acc; simpl; [reflexivity|].
  apply key_matches_false_iff in Hk. rewrite Hk. apply IH.
Qed.

Lemma find_read_key_last (read_id : string) (keys : list string) (k : string) :
  last_match read_id keys k ->
  forall acc, find_read_key read_id keys acc = Some k.
Proof.
  intros (before & after & -> & Hk & Hafter) acc.
  rewrite find_read_key_app. simpl.
  apply key_matches_iff in Hk. rewrite Hk.
  now apply find_read_key_no_match.
Qed.

Lemma find_read_key_cases (read_id : string) (keys : list string) :
  forall acc,
    (Forall (fun k => ~ is_prefix read_id k) keys
     /\ find_read_key read_id keys acc = acc)
    \/ (exists k, last_match read_id keys k
                  /\ find_read_key read_id keys acc = Some k).
Proof.
  induction keys as [|k keys IH]; intros acc; simpl.
  - left. split; [constructor | reflexivity].
  - destruct (key_matches read_id k) eqn:Hk.
    + right. destruct (IH (Some k)) as [[Hnone Hacc] | (k' & Hlast & Hfind)].
      * exists k. split; [|exact Hacc].
        exists [], keys. repeat split; [now apply key_matches_iff | exact Hnone].
      * exists k'. split; [|exact Hfind].
        destruct Hlast as (before & after & -> & Hp & Hafter).
        exists (k :: before), after. repeat split; assumption.
    + destruct (IH acc) as [[Hnone Hacc] | (k' & Hlast & Hfind)].
      * left. split; [|exact Hacc].
        constructor; [now apply key_matches_false_iff | exact Hnone].
      * right. exists k'. split; [|exact Hfind].
        destruct Hlast as (before & after & -> & Hp & Hafter).
        exists (k :: before), after. repeat split; assumption.
Qed.

Lemma last_match_unique (read_id : string) (keys : list string) (k1 k2 : string) :
  last_match read_id keys k1 -> last_match read_id keys k2 -> k1 = k2.
Proof.
  intros H1 H2.
  pose proof (find_read_key_last _ _ _ H1 None) as E1.
  pose proof (find_read_key_last _ _ _ H2 None) as E2.
  congruence.
Qed.

(** ** Dictionaries *)

Lemma dict_mem_iff (key : string) (d : segdict) :
  dict_mem key d = true <-> In key (dict_keys d).
Proof.
  unfold dict_mem. rewrite existsb_exists. split.
  - intros (k & Hin & Heq). apply String.eqb_eq in Heq. now subst.
  - intros Hin. exists key. split; [exact Hin | apply String.eqb_refl].
Qed.

Lemma dict_mem_false_iff (key : string) (d : segdict) :
  dict_mem key d = false <-> ~ In key (dict_keys d).
Proof.
  rewrite <- dict_mem_iff. destruct (dict_mem key d); split; congruence.
Qed.

Lemma dict_getitem_in_keys (d : segdict) (key : string) :
  In key (dict_keys d) -> exists v, dict_getitem d key = Ok v.
Proof.
  induction d as [|[k v] d IH]; simpl; [tauto|].
  intros [-> | Hin].
  - rewrite String.eqb_refl. now exists v.
  - destruct (String.eqb k key); [now exists v | now apply IH].
Qed.

Lemma dict_getitem_ok_in (d : segdict) (key : string) (v : segment) :
  dict_getitem d key = Ok v -> In (key, v) d.
Proof.
  induction d as [|[k w] d IH]; simpl; [discriminate|].
  destruct (String.eqb k key) eqn:E.
  - apply String.eqb_eq in E. intros [= ->]. subst. now left.
  - intros H. right. now apply IH.
Qed.

Lemma dict_getitem_entry (before after : segdict) (key : string) (v : segment) :
  dict_wf (before ++ (key, v) :: after) ->
  dict_getitem (before ++ (key, v) :: after) key = Ok v.
Proof.
  unfold dict_wf, dict_keys. induction before as [|[k w] before IH]; simpl.
  - now rewrite String.eqb_refl.
  - intros Hnd. inversion Hnd as [|? ? Hnotin Hnd']; subst.
    destruct (String.eqb k key) eqn:E.
    + apply String.eqb_eq in E. subst. exfalso. apply Hnotin.
      rewrite map_app. apply in_or_app. right. now left.
    + now apply IH.
Qed.

Lemma dict_getitem_wf_in (d : segdict) (key : string) (v : segment) :
  dict_wf d -> In (key, v) d -> dict_getitem d key = Ok v.
Proof.
  intros Hwf Hin. apply in_split in Hin. destruct Hin as (before & after & ->).
  now apply dict_getitem_entry.
Qed.

(** ** region_search *)

Lemma region_search_unmatched (read_id : string) (segmentations : segdict) :
  Forall (fun k => ~ is_prefix read_id k) (dict_keys segmentations) ->
  forall sample_ix, region_search read_id sample_ix segmentations = Ok UNKNOWN.
Proof.
  intros Hnone sample_ix. unfold region_search.
  now rewrite find_read_key_no_match.
Qed.

Lemma region_search_matched (read_id : string) (segmentations : segdict) (k : string) :
  last_match read_id (dict_keys segmentations) k ->
  forall sample_ix,
    region_search read_id sample_ix segmentations
    = (seg <- dict_getitem segmentations k ;; Ok (region_of seg sample_ix)).
Proof.
  intros Hlast sample_ix. unfold region_search.
  now rewrite (find_read_key_last _ _ _ Hlast).
Qed.

Lemma last_match_in (read_id : string) (keys : list string) (k : string) :
  last_match read_id keys k -> In k keys.
Proof.
  intros (before & after & -> & _). apply in_or_app. right. now left.
Qed.

(** The key found by the scan is a key of the dictionary, so the lookup
    [segmentations[read_key]] never raises. *)
Lemma region_search_returns (read_id : string) (sample_ix : Z)
  (segmentations : segdict) :
  exists label, region_search read_id sample_ix segmentations = Ok label.
Proof.
  destruct (find_read_key_cases read_id (dict_keys segmentations) None)
    as [[Hnone _] | (k & Hlast & _)].
  - exists UNKNOWN. now apply region_search_unmatched.
  - rewrite (region_search_matched _ _ _ Hlast).
    destruct (dict_getitem_in_keys _ _ (last_match_in _ _ _ Hlast)) as [seg ->].
    now exists (region_of seg sample_ix).
Qed.

(** The comparisons of [region_search], read as the nested conditions they
    amount to. *)
Lemma region_of_cases (seg : segment) (i : Z) :
  (i < L_start seg -> region_of seg i = START)
  /\ (L_start seg <= i -> i < A_start seg -> region_of seg i = LEADER)
  /\ (L_start seg <= i -> A_start seg <= i -> i < P_start seg ->
      region_of seg i = ADAPTER)
  /\ (L_start seg <= i -> A_start seg <= i -> P_start seg <= i ->
      i <= P_end seg -> region_of seg i = POLYA)
  /\ (L_start seg <= i -> A_start seg <= i -> P_start seg <= i ->
      i > P_end seg -> region_of seg i = TRANSCRIPT).
Proof.
  unfold region_of, START, LEADER, ADAPTER, POLYA, TRANSCRIPT.
  repeat split; intros;
    repeat match goal with
           | |- context [?a <? ?b] => destruct (Z.ltb_spec a b); try lia
           | |- context [?a <=? ?b] => destruct (Z.leb_spec a b); try lia
           | |- context [?a >? ?b] =>
               rewrite (Z.gtb_ltb a b); destruct (Z.ltb_spec b a); try lia
           end; reflexivity.
Qed.

Lemma region_of_label (seg : segment) (i : Z) :
  In (region_of seg i) [START; LEADER; ADAPTER; POLYA; TRANSCRIPT].
Proof.
  unfold region_of, START, LEADER, ADAPTER, POLYA, TRANSCRIPT.
  destruct (i <? L_start seg); [simpl; tauto|].
  destruct (i <? A_start seg); [simpl; tauto|].
  destruct (i <? P_start seg); [simpl; tauto|].
  destruct (Z.leb_spec i (P_end seg)); [simpl; tauto|].
  rewrite Z.gtb_ltb. destruct (Z.ltb_spec (P_end seg) i); [simpl; tauto | lia].
Qed.

Lemma region_of_known (seg : segment) (i : Z) : region_of seg i <> UNKNOWN.
Proof.
  pose proof (region_of_label seg i) as H. unfold UNKNOWN.
  simpl in H. unfold START, LEADER, ADAPTER, POLYA, TRANSCRIPT in H. lia.
Qed.

Ltac nodup_strings :=
  unfold dict_wf, dict_keys; simpl;
  repeat (constructor; [simpl; intuition discriminate|]); constructor.

(** C2, as the code has it.  For a read identifier that is a key of the
    segmentation dictionary with boundaries L_start, A_start, P_start,
    P_end, and that no key later in iteration order starts with, and for
    every integer sample index i, [region_search] returns START if
    i < L_start, else LEADER if i < A_start, else ADAPTER if i < P_start,
    else POLYA if i <= P_end, else TRANSCRIPT; with boundaries 10, 20, 30,
    50 the indices 5, 15, 25, 30, 50, 51 give START, LEADER, ADAPTER,
    POLYA, POLYA, TRANSCRIPT. *)
Theorem C2_region_search_boundaries
  (before after : segdict) (read_id : string) (seg : segment) :
  dict_wf (before ++ (read_id, seg) :: after) ->
  Forall (fun k => ~ is_prefix read_id k) (dict_keys after) ->
  let segmentations := before ++ (read_id, seg) :: after in
  (forall i : Z,
      (i < L_start seg -> region_search read_id i segmentations = Ok START)
      /\ (L_start seg <= i -> i < A_start seg ->
          region_search read_id i segmentations = Ok LEADER)
      /\ (L_start seg <= i -> A_start seg <= i -> i < P_start seg ->
          region_search read_id i segmentations = Ok ADAPTER)
      /\ (L_start seg <= i -> A_start seg <= i -> P_start seg <= i ->
          i <= P_end seg ->
          region_search read_id i segmentations = Ok POLYA)
      /\ (L_start seg <= i -> A_start seg <= i -> P_start seg <= i ->
          i > P_end seg ->
          region_search read_id i segmentations = Ok TRANSCRIPT))
  /\ (L_start seg = 10 -> A_start seg = 20 -> P_start seg = 30 ->
      P_end seg = 50 ->
      region_search read_id 5 segmentations = Ok START
      /\ region_search read_id 15 segmentations = Ok LEADER
      /\ region_search read_id 25 segmentations = Ok ADAPTER
      /\ region_search read_id 30 segmentations = Ok POLYA
      /\ region_search read_id 50 segmentations = Ok POLYA
      /\ region_search read_id 51 segmentations = Ok TRANSCRIPT).
Proof.
  intros Hwf Hafter segmentations.
  assert (Hrs : forall i, region_search read_id i segmentations
                          = Ok (region_of seg i)).
  { intros i. subst segmentations.
    rewrite (region_search_matched read_id _ read_id).
    - now rewrite dict_getitem_entry.
    - exists (dict_keys before), (dict_keys after).
      unfold dict_keys. rewrite map_app. simpl.
      repeat split; [apply is_prefix_refl | exact Hafter]. }
  split.
  - intros i. rewrite Hrs.
    destruct (region_of_cases seg i) as (H0 & H1 & H2 & H3 & H5).
    repeat split; intros; f_equal; auto.
  - intros HL HA HP HE. rewrite !Hrs.
    repeat split; f_equal;
      match goal with
      | |- region_of seg ?i = _ =>
          destruct (region_of_cases seg i) as (H0 & H1 & H2 & H3 & H5)
      end;
      first [ apply H0; lia | apply H1; lia | apply H2; lia
            | apply H3; lia | apply H5; lia ].
Qed.

Lemma C2_region_search_boundaries_witness :
  region_search "read1" 15 Examples.one_read = Ok LEADER
  /\ region_search "read1" 50 Examples.one_read = Ok POLYA.
Proof.
  assert (Hwf : dict_wf ([] ++ ("read1", Examples.seg_10_20_30_50) :: []))
    by nodup_strings.
  assert (Hafter : Forall (fun k => ~ is_prefix "read1" k)
                          (dict_keys (@nil (string * segment))))
    by constructor.
  destruct (C2_region_search_boundaries [] [] "read1" Examples.seg_10_20_30_50
              Hwf Hafter) as [_ Hparticular].
  destruct Hparticular as (_ & H15 & _ & _ & H50 & _); try reflexivity.
  split; assumption.
Defined.

(** C2 as stated fails: "ab" is a key with boundaries 10, 20, 30, 50 and
    10 <= 15 < 20, yet index 15 is not classified LEADER, because the later
    key "abc" also starts with "ab" and its boundaries are used. *)
Lemma C2_counterexample :
  dict_wf Examples.shadowed
  /\ dict_getitem Examples.shadowed "ab" = Ok Examples.seg_10_20_30_50
  /\ region_search "ab" 15 Examples.shadowed = Ok START
  /\ region_search "ab" 15 Examples.shadowed <> Ok LEADER.
Proof.
  split; [nodup_strings|].
  split; [reflexivity|].
  split; [reflexivity|].
  vm_compute. discriminate.
Qed.

(** C3.  [region_search] uses the last key, in the iteration order of the
    dictionary, whose truncation to the length of the read identifier
    equals the read identifier: the result is computed from that key's
    entry.  When no key starts with the read identifier the result is
    UNKNOWN for every sample index.  One of the two cases always holds. *)
Theorem C3_region_search_last_prefix_match
  (read_id : string) (segmentations : segdict) :
  (forall k,
      last_match read_id (dict_keys segmentations) k ->
      find_read_key read_id (dict_keys segmentations) None = Some k
      /\ forall i,
          region_search read_id i segmentations
          = (seg <- dict_getitem segmentations k ;; Ok (region_of seg i)))
  /\ (Forall (fun k => ~ is_prefix read_id k) (dict_keys segmentations) ->
      find_read_key read_id (dict_keys segmentations) None = None
      /\ forall i, region_search read_id i segmentations = Ok UNKNOWN)
  /\ ((exists k, last_match read_id (dict_keys segmentations) k)
      \/ Forall (fun k => ~ is_prefix read_id k) (dict_keys segmentations)).
Proof.
  split; [|split].
  - intros k Hlast. split.
    + now apply find_read_key_last.
    + now apply region_search_matched.
  - intros Hnone. split.
    + now apply find_read_key_no_match.
    + now apply region_search_unmatched.
  - destruct (find_read_key_cases read_id (dict_keys segmentations) None)
      as [[Hnone _] | (k & Hlast & _)].
    + now right.
    + left. now exists k.
Qed.

Lemma C3_region_search_last_prefix_match_witness :
  (forall i, region_search "ab" i Examples.shared_prefix
             = Ok (region_of Examples.seg_100_200_300_500 i))
  /\ (forall i, region_search "zz" i Examples.shared_prefix = Ok UNKNOWN).
Proof.
  destruct (C3_region_search_last_prefix_match "ab" Examples.shared_prefix)
    as (Hlast & _ & _).
  destruct (C3_region_search_last_prefix_match "zz" Examples.shared_prefix)
    as (_ & Hnone & _).
  split.
  - destruct (Hlast "abY") as [_ H].
    + exists ["abX"], []. repeat split. constructor.
    + intros i. rewrite H. reflexivity.
  - apply Hnone.
    repeat (constructor; [vm_compute; discriminate|]). constructor.
Defined.

(** C9.  When the key scan has matched a key and the boundaries of its
    entry satisfy L_start <= A_start <= P_start <= P_end, the result of
    [region_search] is one of START, LEADER, ADAPTER, POLYA, TRANSCRIPT for
    every sample index: the final [return 6] is not reached. *)
Theorem C9_matched_read_never_unknown
  (read_id : string) (segmentations : segdict) (k : string) (seg : segment)
  (i : Z) :
  last_match read_id (dict_keys segmentations) k ->
  dict_getitem segmentations k = Ok seg ->
  L_start seg <= A_start seg ->
  A_start seg <= P_start seg ->
  P_start seg <= P_end seg ->
  exists label,
    region_search read_id i segmentations = Ok label
    /\ In label [START; LEADER; ADAPTER; POLYA; TRANSCRIPT]
    /\ label <> UNKNOWN.
Proof.
  intros Hlast Hget _ _ _. exists (region_of seg i).
  rewrite (region_search_matched _ _ _ Hlast), Hget. simpl.
  split; [reflexivity|]. split; [apply region_of_label | apply region_of_known].
Qed.

Lemma C9_matched_read_never_unknown_witness :
  exists label,
    region_search "read" 51 Examples.one_read = Ok label
    /\ In label [START; LEADER; ADAPTER; POLYA; TRANSCRIPT]
    /\ label <> UNKNOWN.
Proof.
  apply (C9_matched_read_never_unknown "read" Examples.one_read "read1"
           Examples.seg_10_20_30_50 51).
  - exists [], []. repeat split. constructor.
  - reflexivity.
  - simpl; lia.
  - simpl; lia.
  - simpl; lia.
Defined.

(** C10.  On a non-empty segmentation dictionary the empty read identifier
    matches every key, so [region_search] answers with the region of the
    last entry in iteration order, which is never UNKNOWN. *)
Theorem C10_empty_read_id_matches_last_key
  (segmentations : segdict) (i : Z) :
  dict_wf segmentations ->
  segmentations <> [] ->
  exists before k seg,
    segmentations = before ++ [(k, seg)]
    /\ find_read_key "" (dict_keys segmentations) None = Some k
    /\ region_search "" i segmentations = Ok (region_of seg i)
    /\ region_search "" i segmentations <> Ok UNKNOWN.
Proof.
  intros Hwf Hne.
  destruct (exists_last Hne) as (before & [k seg] & ->).
  exists before, k, seg.
  assert (Hlast : last_match "" (dict_keys (before ++ [(k, seg)])) k).
  { exists (dict_keys before), []. unfold dict_keys. rewrite map_app.
    repeat split; [apply is_prefix_empty | constructor]. }
  assert (Hrs : region_search "" i (before ++ [(k, seg)])
                = Ok (region_of seg i)).
  { rewrite (region_search_matched _ _ _ Hlast).
    now rewrite dict_getitem_entry. }
  repeat split.
  - now apply find_read_key_last.
  - exact Hrs.
  - rewrite Hrs. intros [= H]. now apply region_of_known in H.
Qed.

Lemma C10_empty_read_id_matches_last_key_witness :
  exists before k seg,
    Examples.shared_prefix = before ++ [(k, seg)]
    /\ find_read_key "" (dict_keys Examples.shared_prefix) None = Some k
    /\ region_search "" 250 Examples.shared_prefix = Ok (region_of seg 250)
    /\ region_search "" 250 Examples.shared_prefix <> Ok UNKNOWN.
Proof.
  apply (C10_empty_read_id_matches_last_key Examples.shared_prefix 250).
  - nodup_strings.
  - discriminate.
Defined.

(** ** make_segmentation_dict *)

Lemma dict_setitem_absent (d : segdict) (key : string) (v : segment) :
  ~ In key (dict_keys d) -> dict_setitem d key v = d ++ [(key, v)].
Proof.
  induction d as [|[k w] d IH]; simpl; intros Hnotin; [reflexivity|].
  destruct (String.eqb k key) eqn:E.
  - apply String.eqb_eq in E. tauto.
  - f_equal. apply IH. tauto.
Qed.

Lemma dict_keys_app (d1 d2 : segdict) :
  dict_keys (d1 ++ d2) = dict_keys d1 ++ dict_keys d2.
Proof. apply map_app. Qed.

Lemma dict_getitem_absent (d : segdict) (key : string) :
  ~ In key (dict_keys d) -> dict_getitem d key = Raise KeyError.
Proof.
  induction d as [|[k w] d IH]; simpl; intros Hnotin; [reflexivity|].
  destruct (String.eqb k key) eqn:E.
  - apply String.eqb_eq in E. tauto.
  - apply IH. tauto.
Qed.

Lemma dict_getitem_app_l (d1 d2 : segdict) (key : string) :
  In key (dict_keys d1) ->
  dict_getitem (d1 ++ d2) key = dict_getitem d1 key.
Proof.
  induction d1 as [|[k w] d1 IH]; simpl; [tauto|].
  intros Hin. destruct (String.eqb k key) eqn:E; [reflexivity|].
  apply IH. destruct Hin as [->|Hin]; [|exact Hin].
  now rewrite String.eqb_refl in E.
Qed.

Lemma dict_getitem_app_r (d1 d2 : segdict) (key : string) :
  ~ In key (dict_keys d1) ->
  dict_getitem (d1 ++ d2) key = dict_getitem d2 key.
Proof.
  induction d1 as [|[k w] d1 IH]; simpl; intros Hnotin; [reflexivity|].
  destruct (String.eqb k key) eqn:E.
  - apply String.eqb_eq in E. tauto.
  - apply IH. tauto.
Qed.

Lemma dict_wf_snoc (d : segdict) (key : string) (v : segment) :
  dict_wf d -> ~ In key (dict_keys d) -> dict_wf (d ++ [(key, v)]).
Proof.
  unfold dict_wf. rewrite dict_keys_app. simpl. intros Hnd Hnotin.
  induction (dict_keys d) as [|k ks IH]; simpl.
  - constructor; [simpl; tauto | constructor].
  - inversion Hnd as [|? ? Hk Hks]; subst. constructor.
    + rewrite in_app_iff. simpl. intros [H | [H | []]]; [tauto|].
      subst. apply Hnotin. now left.
    + apply IH; [exact Hks|]. intros H. apply Hnotin. now right.
Qed.

Section SegmentationDict.

Context {F : Type} {builtins : Builtins F}.

(** A line too short to have a read identifier has no boundary either. *)
Lemma short_row_no_boundaries (r : row) :
  row_get segmentation_headers r "read_id" = None ->
  row_get segmentation_headers r "L_start" = None.
Proof.
  unfold row_get. simpl.
  destruct r as [|f0 [|f1 r]]; simpl; [reflexivity | reflexivity | discriminate].
Qed.

Lemma segmentation_body_inv (segments segments' : segdict) (r : row) :
  segmentation_body segments r = Ok segments' ->
  exists id,
    seg_read_id r = Some id
    /\ ((In id (dict_keys segments) /\ segments' = segments)
        \/ (~ In id (dict_keys segments)
            /\ exists seg, row_segment r = Ok seg
                           /\ segments' = segments ++ [(id, seg)])).
Proof.
  unfold segmentation_body, seg_read_id.
  destruct (row_get segmentation_headers r "read_id") as [id|]; [|discriminate].
  intros H. exists id. split; [reflexivity|].
  destruct (dict_mem id segments) eqn:Hmem; simpl in H.
  - left. apply dict_mem_iff in Hmem. split; [exact Hmem | congruence].
  - right. apply dict_mem_false_iff in Hmem. split; [exact Hmem|].
    apply bind_ok_inv in H. destruct H as (seg & Hseg & Hset).
    exists seg. split; [exact Hseg|].
    rewrite dict_setitem_absent in Hset by exact Hmem. congruence.
Qed.

Lemma segmentation_loop_spec (rows : list row) :
  forall segments result_,
    for_rows segmentation_body segments rows = Ok result_ ->
    dict_wf segments ->
    dict_wf result_
    /\ (forall id,
           In id (dict_keys result_)
           <-> In id (dict_keys segments)
               \/ exists r, In r rows /\ seg_read_id r = Some id)
    /\ (forall id v,
           dict_getitem result_ id = Ok v ->
           dict_getitem segments id = Ok v
           \/ (~ In id (dict_keys segments)
               /\ exists r, first_row_with id rows r /\ row_segment r = Ok v)).
Proof.
  induction rows as [|r rows IH]; intros segments result_ Hrun Hwf.
  - simpl in Hrun. injection Hrun as <-. split; [exact Hwf|]. split.
    + intros id. split; [tauto|]. intros [H | (r & [] & _)]. exact H.
    + intros id v H. now left.
  - simpl in Hrun. apply bind_ok_inv in Hrun.
    destruct Hrun as (s1 & Hbody & Hrest).
    apply segmentation_body_inv in Hbody.
    destruct Hbody as (id0 & Hid0 & [[Hin ->] | (Hnotin & seg0 & Hseg0 & ->)]).
    + destruct (IH _ _ Hrest Hwf) as (Hwf' & Hkeys & Hvals).
      split; [exact Hwf'|]. split.
      * intros id. rewrite Hkeys. split.
        -- intros [H | (r' & Hr' & Hid)]; [now left|].
           right. exists r'. split; [now right | exact Hid].
        -- intros [H | (r' & [<- | Hr'] & Hid)]; [now left | |].
           ++ left. congruence.
           ++ right. now exists r'.
      * intros id v Hget. destruct (Hvals id v Hget)
          as [H | (Hnot & r' & (before & after & -> & Hid & Hfirst) & Hseg)];
          [now left|].
        right. split; [exact Hnot|]. exists r'. split; [|exact Hseg].
        exists (r :: before), after. repeat split; [exact Hid|].
        intros r'' [<- | Hr'']; [|now apply Hfirst].
        intros Heq. apply Hnot. congruence.
    + assert (Hwf1 : dict_wf (segments ++ [(id0, seg0)]))
        by now apply dict_wf_snoc.
      destruct (IH _ _ Hrest Hwf1) as (Hwf' & Hkeys & Hvals).
      split; [exact Hwf'|]. split.
      * intros id. rewrite Hkeys, dict_keys_app, in_app_iff. simpl. split.
        -- intros [[H | [<- | []]] | (r' & Hr' & Hid)].
           ++ now left.
           ++ right. exists r. split; [now left | exact Hid0].
           ++ right. exists r'. split; [now right | exact Hid].
        -- intros [H | (r' & [<- | Hr'] & Hid)].
           ++ left. now left.
           ++ left. right. left. congruence.
           ++ right. now exists r'.
      * intros id v Hget. destruct (Hvals id v Hget)
          as [H | (Hnot & r' & (before & after & -> & Hid & Hfirst) & Hseg)].
        -- destruct (in_dec string_dec id (dict_keys segments)) as [Hi | Hi].
           ++ left. now rewrite dict_getitem_app_l in H.
           ++ right. split; [exact Hi|].
              rewrite dict_getitem_app_r in H by exact Hi. simpl in H.
              destruct (String.eqb id0 id) eqn:E; [|discriminate].
              apply String.eqb_eq in E. subst id0. injection H as <-.
              exists r. split; [|exact Hseg0].
              exists [], rows. repeat split; [exact Hid0|]. intros r' [].
        -- rewrite dict_keys_app, in_app_iff in Hnot. simpl in Hnot.
           right. split; [tauto|]. exists r'. split; [|exact Hseg].
           exists (r :: before), after. repeat split; [exact Hid|].
           intros r'' [<- | Hr'']; [|now apply Hfirst].
           intros Heq. apply Hnot. right. left. congruence.
Qed.

Lemma segmentation_loop_skips_seen (segments : segdict) (r : row) (id : string) :
  seg_read_id r = Some id ->
  In id (dict_keys segments) ->
  segmentation_body segments r = Ok segments.
Proof.
  unfold segmentation_body, seg_read_id. intros -> Hin.
  apply dict_mem_iff in Hin. now rewrite Hin.
Qed.

(** The dictionary is built whenever every row has a read identifier and
    boundaries that convert. *)
Lemma make_segmentation_dict_returns (rows : list row) :
  (forall r, In r rows ->
             seg_read_id r <> None /\ is_ok (row_segment r) = true) ->
  exists segments, make_segmentation_dict rows = Ok segments.
Proof.
  unfold make_segmentation_dict. generalize (@nil (string * segment)).
  induction rows as [|r rows IH]; intros segments Hrows; simpl.
  - now exists segments.
  - destruct (Hrows r (or_introl eq_refl)) as [Hid Hseg].
    unfold segmentation_body at 1. unfold seg_read_id in Hid.
    destruct (row_get segmentation_headers r "read_id") as [id|]; [|tauto].
    destruct (row_segment r) as [seg|e]; [|discriminate].
    destruct (dict_mem id segments); simpl;
      apply IH; intros r' Hr'; apply Hrows; now right.
Qed.

(** C4.  When [make_segmentation_dict] returns a dictionary, it has exactly
    one entry per read identifier of the rows, and the entry of an
    identifier holds the boundaries converted from the first row with that
    identifier.  A later row with an identifier already seen is dropped
    without error, whatever its other fields are: removing it from the
    input changes nothing. *)
Theorem C4_first_segmentation_wins (rows : list row) :
  (forall segments,
      make_segmentation_dict rows = Ok segments ->
      NoDup (dict_keys segments)
      /\ (forall id,
             In id (dict_keys segments)
             <-> exists r, In r rows /\ seg_read_id r = Some id)
      /\ (forall id,
             In id (dict_keys segments) ->
             exists r seg,
               first_row_with id rows r
               /\ row_segment r = Ok seg
               /\ dict_getitem segments id = Ok seg))
  /\ (forall rows1 rows2 r r0 id,
         rows = rows1 ++ r :: rows2 ->
         In r0 rows1 ->
         seg_read_id r0 = Some id ->
         seg_read_id r = Some id ->
         make_segmentation_dict rows = make_segmentation_dict (rows1 ++ rows2)).
Proof.
  split.
  - intros segments Hrun.
    assert (Hwf0 : dict_wf []) by constructor.
    destruct (segmentation_loop_spec rows [] segments Hrun Hwf0)
      as (Hwf & Hkeys & Hvals).
    split; [exact Hwf|]. split.
    + intros id. rewrite Hkeys. simpl. tauto.
    + intros id Hin.
      destruct (dict_getitem_in_keys _ _ Hin) as (v & Hget).
      destruct (Hvals id v Hget) as [H | (_ & r & Hfirst & Hseg)];
        [discriminate|].
      now exists r, v.
  - intros rows1 rows2 r r0 id -> Hr0 Hid0 Hid.
    unfold make_segmentation_dict. rewrite !for_rows_app.
    destruct (for_rows segmentation_body [] rows1) as [s1|e] eqn:Hrun1;
      [|reflexivity].
    simpl.
    assert (Hwf0 : dict_wf []) by constructor.
    destruct (segmentation_loop_spec rows1 [] s1 Hrun1 Hwf0) as (_ & Hkeys & _).
    assert (Hin : In id (dict_keys s1)).
    { apply Hkeys. right. now exists r0. }
    now rewrite (segmentation_loop_skips_seen s1 r id Hid Hin).
Qed.

End SegmentationDict.

(** ** new_tsv_to_numpy *)

Section Aggregation.

Context {F : Type} {builtins : Builtins F}.

Lemma region_search_range (read_id : string) (i : Z) (segmentations : segdict)
  (z : Z) :
  region_search read_id i segmentations = Ok z ->
  In z [START; LEADER; ADAPTER; POLYA; TRANSCRIPT; UNKNOWN].
Proof.
  unfold region_search.
  destruct (find_read_key read_id (dict_keys segmentations) None) as [k|].
  - intros H. apply bind_ok_inv in H. destruct H as (seg & _ & [= <-]).
    pose proof (region_of_label seg i) as Hl. simpl in *. tauto.
  - intros [= <-]. simpl. tauto.
Qed.

Lemma row_region_range (segmentations : segdict) (r : row) (x : F) (z : Z) :
  row_region segmentations r = Ok (x, z) ->
  In z [START; LEADER; ADAPTER; POLYA; TRANSCRIPT; UNKNOWN].
Proof.
  unfold row_region. intros H.
  apply bind_ok_inv in H. destruct H as (x' & _ & H).
  destruct (row_get samples_headers r "read_id") as [read|]; [|discriminate].
  apply bind_ok_inv in H. destruct H as (index & _ & H).
  apply bind_ok_inv in H. destruct H as (region & Hrs & [= _ <-]).
  eapply region_search_range. exact Hrs.
Qed.

(** A line with a [scaled_sample] field has a [read_id] field. *)
Lemma scaled_sample_has_read_id (r : row) (s : string) :
  row_get samples_headers r "scaled_sample" = Some s ->
  exists read, row_get samples_headers r "read_id" = Some read.
Proof.
  unfold row_get. simpl.
  destruct r as [|f0 [|f1 r]]; simpl;
    [discriminate | discriminate | intros _; now exists f1].
Qed.

Lemma append_by_region_unknown (d : new_data) (x : F) :
  append_by_region d UNKNOWN x = d.
Proof. reflexivity. Qed.

Lemma append_by_region_known (d : new_data) (z : Z) (x : F) :
  In z [START; LEADER; ADAPTER; POLYA; TRANSCRIPT] ->
  total_samples (append_by_region d z x) = S (total_samples d).
Proof.
  unfold START, LEADER, ADAPTER, POLYA, TRANSCRIPT. simpl.
  intros [<- | [<- | [<- | [<- | [<- | []]]]]];
    unfold append_by_region, total_samples; simpl;
    rewrite ?length_app; simpl; lia.
Qed.

Lemma new_tsv_loop_partition (segmentations : segdict) (rows : list row) :
  forall d d',
    for_rows (new_tsv_body segmentations) d rows = Ok d' ->
    (total_samples d' + count_region segmentations UNKNOWN rows
     = total_samples d + List.length rows)%nat.
Proof.
  induction rows as [|r rows IH]; intros d d' Hrun; simpl in Hrun.
  - injection Hrun as <-. simpl. unfold count_region. simpl. lia.
  - apply bind_ok_inv in Hrun. destruct Hrun as (d1 & Hbody & Hrest).
    specialize (IH _ _ Hrest).
    unfold new_tsv_body in Hbody. apply bind_ok_inv in Hbody.
    destruct Hbody as ([x z] & Hreg & [= <-]). simpl in IH.
    unfold count_region in *. simpl. unfold classified at 1. rewrite Hreg.
    pose proof (row_region_range _ _ _ _ Hreg) as Hz.
    destruct (Z.eqb_spec z UNKNOWN) as [-> | Hne].
    + rewrite append_by_region_unknown in IH. simpl. lia.
    + rewrite append_by_region_known in IH; [lia|].
      simpl in Hz |- *. intuition congruence.
Qed.

(** The collections are built whenever every row can be classified. *)
Lemma new_tsv_to_numpy_returns (rows : list row) (segmentations : segdict) :
  (forall r, In r rows -> is_ok (row_region segmentations r) = true) ->
  exists d, new_tsv_to_numpy rows segmentations = Ok d.
Proof.
  unfold new_tsv_to_numpy. generalize (empty_new_data (F:=F)).
  induction rows as [|r rows IH]; intros d Hrows; simpl.
  - now exists d.
  - pose proof (Hrows r (or_introl eq_refl)) as Hr.
    unfold new_tsv_body at 1.
    destruct (row_region segmentations r) as [sr|e]; [|discriminate].
    simpl. apply IH. intros r' Hr'. apply Hrows. now right.
Qed.

(** C5.  When [new_tsv_to_numpy] returns, the sizes of the five collections
    and the number of rows classified UNKNOWN add up to the number of rows
    read; a row classified UNKNOWN raises nothing and leaves all five
    collections as they were. *)
Theorem C5_aggregation_partition
  (rows : list row) (segmentations : segdict) (d : new_data) :
  new_tsv_to_numpy rows segmentations = Ok d ->
  (List.length (S_samples d) + List.length (L_samples d)
   + List.length (A_samples d) + List.length (P_samples d)
   + List.length (T_samples d)
   + count_region segmentations UNKNOWN rows
   = List.length rows)%nat
  /\ (forall r x acc,
         In r rows ->
         row_region segmentations r = Ok (x, UNKNOWN) ->
         new_tsv_body segmentations acc r = Ok acc).
Proof.
  intros Hrun. split.
  - apply new_tsv_loop_partition in Hrun.
    unfold total_samples in Hrun. simpl in Hrun. lia.
  - intros r x acc _ Hreg. unfold new_tsv_body. rewrite Hreg. reflexivity.
Qed.

End Aggregation.

(** ** Concrete runs over the real numbers *)

Lemma Int_part_IZR (z : Z) : Int_part (IZR z) = z.
Proof.
  unfold Int_part. rewrite <- (tech_up (IZR z) (z + 1)).
  - lia.
  - apply IZR_lt. lia.
  - rewrite plus_IZR. lra.
Qed.

Lemma Rtrunc_IZR (z : Z) : Rtrunc (IZR z) = z.
Proof.
  unfold Rtrunc. destruct (Rle_dec 0 (IZR z)) as [H|H].
  - apply Int_part_IZR.
  - rewrite <- opp_IZR, Int_part_IZR. lia.
Qed.

(** Evaluation of a run on concrete rows, leaving real arithmetic alone. *)
Ltac run_R :=
  cbv -[IZR Rtrunc Rplus Rmult Rdiv Rminus Rinv Ropp sqrt ln exp PI INR].

Lemma seg_rows_dict :
  make_segmentation_dict (F:=R) Examples.seg_rows = Ok Examples.two_reads.
Proof.
  unfold make_segmentation_dict. simpl. rewrite !Rtrunc_IZR. reflexivity.
Qed.

Lemma C4_first_segmentation_wins_witness :
  make_segmentation_dict (F:=R) Examples.seg_rows = Ok Examples.two_reads
  /\ NoDup (dict_keys Examples.two_reads)
  /\ (exists r seg,
         first_row_with "r1" Examples.seg_rows r
         /\ row_segment (F:=R) r = Ok seg
         /\ dict_getitem Examples.two_reads "r1" = Ok seg)
  /\ make_segmentation_dict (F:=R) Examples.seg_rows
     = make_segmentation_dict (F:=R)
         [Examples.seg_row "r1" "10" "20" "30" "50";
          Examples.seg_row "r2" "100" "200" "300" "500"].
Proof.
  destruct (C4_first_segmentation_wins (F:=R) Examples.seg_rows)
    as [Hbuilt Hdrop].
  destruct (Hbuilt Examples.two_reads seg_rows_dict) as (Hnodup & _ & Hfirst).
  split; [exact seg_rows_dict|]. split; [exact Hnodup|]. split.
  - apply Hfirst. simpl. now left.
  - apply (Hdrop [Examples.seg_row "r1" "10" "20" "30" "50";
                  Examples.seg_row "r2" "100" "200" "300" "500"]
                 [] (Examples.seg_row "r1" "x" "y" "z" "w")
                 (Examples.seg_row "r1" "10" "20" "30" "50") "r1").
    + reflexivity.
    + simpl. now left.
    + reflexivity.
    + reflexivity.
Defined.

Lemma C5_aggregation_partition_witness :
  exists d,
    new_tsv_to_numpy (F:=R) Examples.new_rows Examples.two_reads = Ok d
    /\ (List.length (S_samples d) + List.length (L_samples d)
        + List.length (A_samples d) + List.length (P_samples d)
        + List.length (T_samples d)
        + count_region (F:=R) Examples.two_reads UNKNOWN Examples.new_rows
        = List.length Examples.new_rows)%nat.
Proof.
  eexists. split.
  - run_R. reflexivity.
  - apply (C5_aggregation_partition (F:=R) Examples.new_rows Examples.two_reads).
    run_R. reflexivity.
Defined.

(** ** fit_gaussian *)

Section GaussianFit.

Local Open Scope R_scope.

Lemma fit_gaussian_R (samples : list R) :
  fit_gaussian samples = (ml_mean samples, sqrt (ml_variance samples)).
Proof.
  unfold fit_gaussian, norm_fit, ml_variance, ml_mean. simpl.
  now rewrite length_map.
Qed.

Lemma ml_mean_0_4 : ml_mean [0; 4] = 2.
Proof. unfold ml_mean, Rsum. simpl. lra. Qed.

Lemma ml_variance_0_4 : ml_variance [0; 4] = 4.
Proof. unfold ml_variance. rewrite ml_mean_0_4. unfold Rsum. simpl. lra. Qed.

Lemma sqrt_4 : sqrt 4 = 2.
Proof. replace 4 with (2 * 2) by lra. apply sqrt_square. lra. Qed.

(** C1 on the code.  Over the reals, [fit_gaussian] returns the sample
    mean and the square root of the maximum-likelihood variance, which is
    the standard deviation: on the samples 0 and 4 it returns (2, 2) while
    the maximum-likelihood variance is 4.  [main] prints the second
    component as "var" and its square root as "stdv". *)
Theorem C1_fit_gaussian_returns_standard_deviation :
  (forall samples : list R,
      fit_gaussian samples = (ml_mean samples, sqrt (ml_variance samples)))
  /\ fit_gaussian [0; 4] = (2, 2)
  /\ ml_variance [0; 4] = 4
  /\ snd (fit_gaussian [0; 4]) <> ml_variance [0; 4]
  /\ (forall gL gP mA mT,
         nth_error (params_report (fit_gaussian [0; 4]) gL gP mA mT) 0
         = Some (GaussianParams "START" 2 2 (sqrt 2))).
Proof.
  assert (H04 : fit_gaussian [0; 4] = (2, 2)).
  { rewrite fit_gaussian_R, ml_mean_0_4, ml_variance_0_4, sqrt_4. reflexivity. }
  split; [exact fit_gaussian_R|].
  split; [exact H04|].
  split; [exact ml_variance_0_4|].
  split.
  - rewrite H04, ml_variance_0_4. simpl. lra.
  - intros [muL sL] [muP sP] [[[a b] c] [[d e] f]] [[[a' b'] c'] [[d' e'] f']].
    rewrite H04. reflexivity.
Qed.

End GaussianFit.

(** ** The mixture benchmark *)

Section MixtureBenchmark.

Context {F : Type} {numeric : Numeric F}.

Lemma arr_add_map {A : Type} (f g : A -> F) (xs : list A) :
  arr_add (map f xs) (map g xs) = map (fun x => f_add (f x) (g x)) xs.
Proof.
  induction xs as [|x xs IH]; simpl; [reflexivity | now rewrite IH].
Qed.

Lemma mixture_avg_llh_pointwise (samples : list F) (c0 c1 : F * F * F) :
  mixture_avg_llh samples c0 c1
  = np_mean (map (log_mixture_density c0 c1) samples).
Proof.
  destruct c0 as [[pi0 mu0] sig0], c1 as [[pi1 mu1] sig1].
  unfold mixture_avg_llh, arr_log, arr_scale, arr_pdf, log_mixture_density.
  rewrite !map_map, arr_add_map, map_map. reflexivity.
Qed.

(** The two mixture lines of the benchmark. *)
Lemma benchmark_report_mixture_lines
  (old : old_data) (new : new_data) (gS gL gP : F * F)
  (mA mT : (F * F * F) * (F * F * F)) :
  let printed := fst (benchmark_report old new gS gL gP mA mT) in
  nth_error printed 6
  = Some (AvgLogLikelihood
            (np_mean (A_loglkhd old))
            (np_mean (map (log_mixture_density (fst mA) (snd mA))
                          (A_samples new))))
  /\ nth_error printed 10
     = Some (AvgLogLikelihood
               (np_mean (T_loglkhd old))
               (np_mean (map (log_mixture_density (fst mT) (snd mT))
                             (T_samples new)))).
Proof.
  intros printed. subst printed. unfold benchmark_report.
  rewrite !mixture_avg_llh_pointwise. split; reflexivity.
Qed.

End MixtureBenchmark.

(** Over the reals the logarithm of the summed weighted densities is not
    the sum of the logarithms of the weighted densities: two equal
    standard-normal components of weight 1/2, at the point 0. *)
Section LogOfSum.

Local Open Scope R_scope.

Lemma norm_pdf_standard_at_0 : norm_pdf 0 0 (np_sqrt 1) = / sqrt (2 * PI).
Proof.
  simpl. rewrite sqrt_1.
  replace (- ((0 - 0) / 1 * ((0 - 0) / 1)) / 2) with 0 by lra.
  rewrite exp_0. unfold Rdiv. rewrite Rmult_1_r, Rmult_1_l. reflexivity.
Qed.

Lemma standard_density_bounds : 0 < / sqrt (2 * PI) < 1.
Proof.
  assert (Hpi : 1 < 2 * PI) by (pose proof PI2_1; lra).
  assert (Hs : 1 < sqrt (2 * PI)).
  { rewrite <- sqrt_1 at 1. apply sqrt_lt_1_alt. lra. }
  split.
  - apply Rinv_0_lt_compat. lra.
  - rewrite <- Rinv_1. apply Rinv_lt_contravar; lra.
Qed.

Lemma log_of_sum_is_not_sum_of_logs :
  let c := (1 / 2, 0, 1) in
  log_mixture_density c c 0
  <> np_log (f_mul (1 / 2) (norm_pdf 0 0 (np_sqrt 1)))
     + np_log (f_mul (1 / 2) (norm_pdf 0 0 (np_sqrt 1))).
Proof.
  intros c. subst c. unfold log_mixture_density.
  rewrite norm_pdf_standard_at_0. simpl.
  destruct standard_density_bounds as [Hpos Hlt].
  set (d := / sqrt (2 * PI)) in *.
  replace (1 / 2 * d + 1 / 2 * d) with d by lra.
  assert (H1 : ln (1 / 2 * d) < ln d) by (apply ln_increasing; lra).
  assert (H2 : ln (1 / 2 * d) < 0).
  { rewrite <- ln_1. apply ln_increasing; lra. }
  lra.
Qed.

End LogOfSum.

(** ** main *)

Section Main.

Context {F : Type} {builtins : Builtins F} {numeric : Numeric F}
        {sklearn : Sklearn F}.

(** How a run of [main] ends and what it has printed by then. *)
Lemma main_cases (old_rows seg_rows new_rows : list row) (benchmark : bool) :
  main old_rows seg_rows new_rows benchmark
  = match old_tsv_to_numpy old_rows with
    | Raise e => ([loading_line], Raise e)
    | Ok old =>
        match make_segmentation_dict seg_rows with
        | Raise e => ([loading_line], Raise e)
        | Ok segmentations =>
            match new_tsv_to_numpy new_rows segmentations with
            | Raise e => ([loading_line], Raise e)
            | Ok new =>
                match fit_mixture2 (A_samples new) with
                | Raise e => (progress_lines, Raise e)
                | Ok mA =>
                    match fit_mixture2 (T_samples new) with
                    | Raise e => (progress_lines, Raise e)
                    | Ok mT =>
                        let gS := fit_gaussian (S_samples new) in
                        let gL := fit_gaussian (L_samples new) in
                        let gP := fit_gaussian (P_samples new) in
                        (progress_lines
                         ++ params_report gS gL gP mA mT
                         ++ (if benchmark
                             then fst (benchmark_report old new gS gL gP mA mT)
                             else []),
                         Ok tt)
                    end
                end
            end
        end
    end.
Proof.
  unfold main, fit_mixture2, run_bind, print, call, ret. simpl.
  destruct (old_tsv_to_numpy old_rows) as [old|e]; [|reflexivity].
  destruct (make_segmentation_dict seg_rows) as [segmentations|e]; [|reflexivity].
  destruct (new_tsv_to_numpy new_rows segmentations) as [new|e]; [|reflexivity].
  simpl.
  destruct (ps <- fit_gmm (A_samples new) 2 ;; unpack2 ps) as [mA|e];
    [|reflexivity].
  destruct (ps <- fit_gmm (T_samples new) 2 ;; unpack2 ps) as [mT|e];
    [|reflexivity].
  destruct benchmark; simpl; rewrite ?app_nil_r; reflexivity.
Qed.

Lemma params_report_lines (gS gL gP : F * F) (mA mT : (F * F * F) * (F * F * F)) :
  forallb is_param_line (params_report gS gL gP mA mT) = true
  /\ forallb (fun l => negb (is_benchmark_line l))
             (params_report gS gL gP mA mT) = true
  /\ map line_name (params_report gS gL gP mA mT)
     = [Some "START"; Some "LEADER"; Some "ADAPTER0"; Some "ADAPTER1";
        Some "POLYA"; Some "TRANSCR0"; Some "TRANSCR1"].
Proof.
  destruct gS, gL, gP, mA as [[[? ?] ?] [[? ?] ?]], mT as [[[? ?] ?] [[? ?] ?]].
  repeat split.
Qed.

Lemma progress_lines_not_benchmark :
  forallb (fun l : line F => negb (is_benchmark_line l)) progress_lines = true.
Proof. reflexivity. Qed.

Lemma args_benchmark_false_iff (option_value : option string) :
  args_benchmark option_value = false <-> option_value = Some "".
Proof.
  unfold args_benchmark, py_bool_str. destruct option_value as [s|].
  - destruct (String.eqb_spec s ""); simpl; split; congruence.
  - split; discriminate.
Qed.

(** What [main] prints when it is called with [benchmark] false: no line of
    the benchmark, and, when it ends normally, the three progress messages
    followed by the seven parameter lines START, LEADER, ADAPTER0,
    ADAPTER1, POLYA, TRANSCR0, TRANSCR1; the same run with [benchmark] true
    prints these ten lines followed by the eleven benchmark lines. *)
Lemma main_benchmark_false_output
  (old_rows seg_rows new_rows : list row) :
  args_benchmark None = true
  /\ forall out outcome,
      main old_rows seg_rows new_rows false = (out, outcome) ->
      forallb (fun l => negb (is_benchmark_line l)) out = true
      /\ (outcome = Ok tt ->
          exists params bench,
            out = progress_lines ++ params
            /\ forallb is_param_line params = true
            /\ map line_name params
               = [Some "START"; Some "LEADER"; Some "ADAPTER0";
                  Some "ADAPTER1"; Some "POLYA"; Some "TRANSCR0";
                  Some "TRANSCR1"]
            /\ main old_rows seg_rows new_rows true = (out ++ bench, Ok tt)
            /\ List.length bench = 11%nat
            /\ forallb is_benchmark_line bench = true).
Proof.
  split; [reflexivity|].
  intros out outcome. rewrite !main_cases.
  destruct (old_tsv_to_numpy old_rows) as [old|e];
    [|intros [= <- <-]; split; [reflexivity | discriminate]].
  destruct (make_segmentation_dict seg_rows) as [segmentations|e];
    [|intros [= <- <-]; split; [reflexivity | discriminate]].
  destruct (new_tsv_to_numpy new_rows segmentations) as [new|e];
    [|intros [= <- <-]; split; [reflexivity | discriminate]].
  destruct (fit_mixture2 (A_samples new)) as [mA|e];
    [|intros [= <- <-]; split; [reflexivity | discriminate]].
  destruct (fit_mixture2 (T_samples new)) as [mT|e];
    [|intros [= <- <-]; split; [reflexivity | discriminate]].
  cbv zeta. rewrite app_nil_r. intros Heq.
  apply pair_equal_spec in Heq. destruct Heq as [<- <-].
  destruct (params_report_lines (fit_gaussian (S_samples new))
              (fit_gaussian (L_samples new)) (fit_gaussian (P_samples new))
              mA mT) as (Hparam & Hnobench & Hnames).
  split.
  - rewrite forallb_app, Hnobench. reflexivity.
  - intros _.
    exists (params_report (fit_gaussian (S_samples new))
              (fit_gaussian (L_samples new)) (fit_gaussian (P_samples new))
              mA mT).
    eexists. split; [reflexivity|]. split; [exact Hparam|].
    split; [exact Hnames|]. split; [now rewrite <- app_assoc|].
    split; reflexivity.
Qed.

End Main.

Lemma example_run (benchmark : bool) :
  exists out,
    main (F:=R) Examples.old_rows Examples.seg_rows Examples.new_rows benchmark
    = (out, Ok tt).
Proof.
  destruct benchmark; eexists; rewrite main_cases, seg_rows_dict;
    run_R; reflexivity.
Qed.

(** C7 on the code.  Without the option, [benchmark] is true.  The option
    is converted with [bool], which is true of every non-empty string: the
    invocation with [--benchmark False], the spelling the help text of the
    option gives for leaving the benchmark out, runs [main] with
    [benchmark] true, and on the example files it prints the ten lines of
    progress and parameters followed by the eleven lines of the
    benchmark. *)
Theorem C7_benchmark_False_runs_benchmark :
  args_benchmark None = true
  /\ args_benchmark (Some "False") = true
  /\ (forall (F : Type) (builtins : Builtins F) (numeric : Numeric F)
             (sklearn : Sklearn F) (old_rows seg_rows new_rows : list row),
         cli (F:=F) old_rows seg_rows new_rows (Some "False")
         = main old_rows seg_rows new_rows true)
  /\ exists out,
      cli (F:=R) Examples.old_rows Examples.seg_rows Examples.new_rows
          (Some "False")
      = (out, Ok tt)
      /\ List.length out = 21%nat
      /\ nth_error out 10
         = Some (Text "===== Emission Log-Likelihood Benchmarks =====")
      /\ existsb is_benchmark_line out = true.
Proof.
  split; [reflexivity|]. split; [reflexivity|]. split; [reflexivity|].
  eexists. split.
  - unfold cli. change (args_benchmark (Some "False")) with true.
    rewrite main_cases, seg_rows_dict. run_R. reflexivity.
  - repeat split.
Qed.

(** ** Rejected fields *)

Lemma for_rows_raises {S X : Type} (body : S -> X -> result S)
  (before : list X) (r : X) (s : S) :
  (forall s', exists e, body s' r = Raise e) ->
  exists e, forall after, for_rows body s (before ++ r :: after) = Raise e.
Proof.
  intros Hbody. destruct (for_rows body s before) as [s'|e] eqn:Hbefore.
  - destruct (Hbody s') as [e He]. exists e. intros after.
    rewrite for_rows_app, Hbefore. simpl. now rewrite He.
  - exists e. intros after. now rewrite for_rows_app, Hbefore.
Qed.

Lemma for_rows_raises_at {S X : Type} (body : S -> X -> result S)
  (before after : list X) (r : X) (s s' : S) (e : exn) :
  for_rows body s before = Ok s' ->
  body s' r = Raise e ->
  for_rows body s (before ++ r :: after) = Raise e.
Proof.
  intros Hbefore He. rewrite for_rows_app, Hbefore. simpl. now rewrite He.
Qed.

Section Rejected.

Context {F : Type} {builtins : Builtins F}.

Ltac row_fields r H :=
  unfold row_get in H; simpl in H;
  destruct r as [|?f [|?f [|?f [|?f [|?f [|?f [|?f [|?f [|?f [|?f [|?f
                [|?f r]]]]]]]]]]]];
  simpl in H; try discriminate H.

Ltac run_conversions :=
  unfold py_int_float, py_float, py_int; simpl;
  repeat match goal with
         | H : ?x = _ |- context [?x] => rewrite H; simpl
         | |- context [bind (match float_str ?f with _ => _ end) _] =>
             destruct (float_str f); simpl
         | |- context [bind (match int_str ?f with _ => _ end) _] =>
             destruct (int_str f); simpl
         | |- context [bind (int_float ?x) _] =>
             destruct (int_float x); simpl
         end.

Lemma old_tsv_body_rejected (r : row) (d : old_data) :
  old_row_rejected (F:=F) r -> old_tsv_body d r = Raise ValueError.
Proof.
  intros (key & Hkey & s & Hget & Hrej). unfold old_converted_fields in Hkey.
  simpl in Hkey.
  destruct Hkey as [<- | [<- | [<- | [<- | [<- | []]]]]];
    row_fields r Hget; injection Hget as ->;
    unfold old_tsv_body, row_get; simpl; run_conversions; reflexivity.
Qed.

Lemma new_tsv_body_rejected (segmentations : segdict) (r : row) (d : new_data) :
  new_row_rejected (F:=F) r ->
  exists e, new_tsv_body segmentations d r = Raise e
            /\ (e = ValueError \/ e = TypeError).
Proof.
  intros [(s & Hget & Hrej) | (s & Hget & Hrej)];
    row_fields r Hget; injection Hget as ->;
    unfold new_tsv_body, row_region, row_get; simpl; run_conversions;
    eauto.
Qed.

Lemma row_segment_rejected (r : row) :
  seg_row_rejected (F:=F) r ->
  exists e, row_segment (F:=F) r = Raise e.
Proof.
  intros (key & Hkey & s & Hget & Hrej). unfold boundary_fields in Hkey.
  simpl in Hkey.
  destruct Hkey as [<- | [<- | [<- | [<- | []]]]];
    row_fields r Hget; injection Hget as ->;
    unfold row_segment, row_get; simpl; run_conversions; eauto.
Qed.

End Rejected.

Section Abort.

Context {F : Type} {builtins : Builtins F} {numeric : Numeric F}
        {sklearn : Sklearn F}.

Lemma main_aborts_on_load_error (old_rows seg_rows new_rows : list row)
  (benchmark : bool) (e : exn) :
  load old_rows seg_rows new_rows = Raise e ->
  main old_rows seg_rows new_rows benchmark = ([loading_line], Raise e).
Proof.
  unfold load. rewrite main_cases.
  destruct (old_tsv_to_numpy old_rows) as [old|e1]; simpl; [|congruence].
  destruct (make_segmentation_dict seg_rows) as [segmentations|e2]; simpl;
    [|congruence].
  destruct (new_tsv_to_numpy new_rows segmentations) as [new|e3]; simpl;
    [discriminate | congruence].
Qed.

(** C8, as the code has it.  A row that holds a string the conversion
    rejects in a field the reader converts makes the reader raise at that
    row, whatever rows follow it: the fields are s_llh, l_llh, a_llh, p_llh
    and t_llh in the old samples file, scaled_sample and idx in the new
    samples file, and the four boundaries in a segmentation row whose read
    identifier has not been seen before.  An exception raised while the
    files are loaded ends [main] with "Loading data from TSV..." as its
    only output. *)
Theorem C8_rejected_field_aborts :
  (forall before r,
      old_row_rejected (F:=F) r ->
      exists e,
        (forall after, old_tsv_to_numpy (before ++ r :: after) = Raise e)
        /\ (is_ok (old_tsv_to_numpy before) = true -> e = ValueError)
        /\ (forall after seg_rows new_rows benchmark,
               main (before ++ r :: after) seg_rows new_rows benchmark
               = ([loading_line], Raise e)))
  /\ (forall segmentations before r,
         new_row_rejected (F:=F) r ->
         exists e,
           forall after,
             new_tsv_to_numpy (before ++ r :: after) segmentations = Raise e)
  /\ (forall before r id,
         seg_row_rejected (F:=F) r ->
         seg_read_id r = Some id ->
         (forall r', In r' before -> seg_read_id r' <> Some id) ->
         exists e,
           forall after,
             make_segmentation_dict (before ++ r :: after) = Raise e)
  /\ (forall old_rows seg_rows new_rows benchmark e,
         load old_rows seg_rows new_rows = Raise e ->
         main old_rows seg_rows new_rows benchmark
         = ([loading_line], Raise e)).
Proof.
  split; [|split; [|split]].
  - intros before r Hrej.
    destruct (old_tsv_to_numpy before) as [d|e0] eqn:Hbefore.
    + exists ValueError.
      assert (Hraise : forall after,
                 old_tsv_to_numpy (before ++ r :: after) = Raise ValueError).
      { intros after. unfold old_tsv_to_numpy in *.
        apply (for_rows_raises_at _ _ _ _ _ d); [exact Hbefore|].
        now apply old_tsv_body_rejected. }
      split; [exact Hraise|]. split; [reflexivity|].
      intros after seg_rows new_rows benchmark.
      apply main_aborts_on_load_error. unfold load. now rewrite Hraise.
    + exists e0.
      assert (Hraise : forall after,
                 old_tsv_to_numpy (before ++ r :: after) = Raise e0).
      { intros after. unfold old_tsv_to_numpy in *.
        now rewrite for_rows_app, Hbefore. }
      split; [exact Hraise|]. split; [discriminate|].
      intros after seg_rows new_rows benchmark.
      apply main_aborts_on_load_error. unfold load. now rewrite Hraise.
  - intros segmentations before r Hrej. unfold new_tsv_to_numpy.
    apply for_rows_raises. intros d.
    destruct (new_tsv_body_rejected segmentations r d Hrej) as (e & He & _).
    now exists e.
  - intros before r id Hrej Hid Hfresh. unfold make_segmentation_dict.
    destruct (for_rows segmentation_body [] before) as [segs|e0] eqn:Hbefore.
    + destruct (row_segment_rejected r Hrej) as [e He].
      exists e. intros after.
      apply (for_rows_raises_at _ _ _ _ _ segs); [exact Hbefore|].
      assert (Hwf0 : dict_wf []) by constructor.
      destruct (segmentation_loop_spec before [] segs Hbefore Hwf0)
        as (_ & Hkeys & _).
      assert (Hnotin : ~ In id (dict_keys segs)).
      { intros Hin. apply Hkeys in Hin.
        destruct Hin as [[] | (r' & Hr' & Hid')]. now apply (Hfresh r'). }
      unfold segmentation_body. unfold seg_read_id in Hid. rewrite Hid.
      apply dict_mem_false_iff in Hnotin. rewrite Hnotin. simpl.
      now rewrite He.
    + exists e0. intros after. now rewrite for_rows_app, Hbefore.
  - intros. now apply main_aborts_on_load_error.
Qed.

End Abort.

Lemma C8_rejected_field_aborts_witness :
  exists e,
    (forall after,
        old_tsv_to_numpy (F:=R)
          ([Examples.sample_row "r1" "5" "80" "81" "-1" "START"]
           ++ Examples.row_bad_s_llh :: after)
        = Raise e)
    /\ e = ValueError.
Proof.
  destruct (C8_rejected_field_aborts (F:=R)) as (Hold & _).
  destruct (Hold [Examples.sample_row "r1" "5" "80" "81" "-1" "START"]
              Examples.row_bad_s_llh) as (e & Hraise & He & _).
  - exists "s_llh". split; [simpl; tauto|].
    exists "abc". split; reflexivity.
  - exists e. split; [exact Hraise|]. apply He. reflexivity.
Defined.

(** C8 as stated fails: the raw [sample] and the [c_llh] of a samples row
    are numeric fields of the schema, and with strings in them that are no
    numbers both readers accept the row and the run ends normally. *)
Lemma C8_counterexample :
  row_get samples_headers Examples.row_bad_sample "sample" = Some "abc"
  /\ float_str (F:=R) "abc" = None
  /\ is_ok (old_tsv_to_numpy (F:=R)
              (Examples.row_bad_sample :: Examples.old_rows)) = true
  /\ is_ok (new_tsv_to_numpy (F:=R)
              (Examples.row_bad_sample :: Examples.new_rows)
              Examples.two_reads) = true
  /\ exists out,
      main (F:=R) (Examples.row_bad_sample :: Examples.old_rows)
        Examples.seg_rows (Examples.row_bad_sample :: Examples.new_rows) true
      = (out, Ok tt).
Proof.
  split; [reflexivity|]. split; [reflexivity|].
  split; [run_R; reflexivity|]. split; [run_R; reflexivity|].
  eexists. rewrite main_cases, seg_rows_dict. run_R. reflexivity.
Qed.

(** ** The benchmark of the mixture regions *)

Section MixtureReport.

Context {F : Type} {builtins : Builtins F} {numeric : Numeric F}
        {sklearn : Sklearn F}.

(** C6.  In a run with the benchmark that ends normally, the new average
    log-likelihood printed for ADAPTER (and likewise for TRANSCRIPT) is the
    mean, over the samples aggregated for the region, of
    log(pi0 * pdf0(x) + pi1 * pdf1(x)), where (pi_c, mu_c, var_c) are the
    fitted components and pdf_c is the normal density with mean mu_c and
    scale sqrt(var_c): the weighted densities are added and the logarithm
    of the sum is taken.  This holds for every reading of the numerical
    operations. *)
Theorem C6_mixture_log_likelihood
  (old_rows seg_rows new_rows : list row) (out : list (line F)) :
  main old_rows seg_rows new_rows true = (out, Ok tt) ->
  exists old segmentations new
         pi0_A mu0_A var0_A pi1_A mu1_A var1_A
         pi0_T mu0_T var0_T pi1_T mu1_T var1_T,
    load old_rows seg_rows new_rows = Ok (old, segmentations, new)
    /\ fit_mixture2 (A_samples new)
       = Ok ((pi0_A, mu0_A, var0_A), (pi1_A, mu1_A, var1_A))
    /\ fit_mixture2 (T_samples new)
       = Ok ((pi0_T, mu0_T, var0_T), (pi1_T, mu1_T, var1_T))
    /\ nth_error out 16
       = Some (AvgLogLikelihood
                 (np_mean (A_loglkhd old))
                 (np_mean
                    (map (fun x =>
                            np_log
                              (f_add
                                 (f_mul pi0_A (norm_pdf x mu0_A (np_sqrt var0_A)))
                                 (f_mul pi1_A (norm_pdf x mu1_A (np_sqrt var1_A)))))
                         (A_samples new))))
    /\ nth_error out 20
       = Some (AvgLogLikelihood
                 (np_mean (T_loglkhd old))
                 (np_mean
                    (map (fun x =>
                            np_log
                              (f_add
                                 (f_mul pi0_T (norm_pdf x mu0_T (np_sqrt var0_T)))
                                 (f_mul pi1_T (norm_pdf x mu1_T (np_sqrt var1_T)))))
                         (T_samples new)))).
Proof.
  rewrite main_cases. unfold load.
  destruct (old_tsv_to_numpy old_rows) as [old|e]; [|discriminate].
  destruct (make_segmentation_dict seg_rows) as [segmentations|e];
    [|discriminate].
  destruct (new_tsv_to_numpy new_rows segmentations) as [new|e] eqn:Hnew;
    [|discriminate].
  destruct (fit_mixture2 (A_samples new))
    as [[[[pi0_A mu0_A] var0_A] [[pi1_A mu1_A] var1_A]]|e] eqn:HfitA;
    [|discriminate].
  destruct (fit_mixture2 (T_samples new))
    as [[[[pi0_T mu0_T] var0_T] [[pi1_T mu1_T] var1_T]]|e] eqn:HfitT;
    [|discriminate].
  cbv zeta. intros Heq. apply pair_equal_spec in Heq. destruct Heq as [<- _].
  exists old, segmentations, new,
    pi0_A, mu0_A, var0_A, pi1_A, mu1_A, var1_A,
    pi0_T, mu0_T, var0_T, pi1_T, mu1_T, var1_T.
  split; [simpl; now rewrite Hnew|].
  split; [exact HfitA|]. split; [exact HfitT|].
  destruct (benchmark_report_mixture_lines old new
              (fit_gaussian (S_samples new)) (fit_gaussian (L_samples new))
              (fit_gaussian (P_samples new))
              ((pi0_A, mu0_A, var0_A), (pi1_A, mu1_A, var1_A))
              ((pi0_T, mu0_T, var0_T), (pi1_T, mu1_T, var1_T)))
    as [HA HT].
  cbv zeta in HA, HT.
  destruct (fit_gaussian (S_samples new)), (fit_gaussian (L_samples new)),
    (fit_gaussian (P_samples new)).
  split; [exact HA | exact HT].
Qed.

End MixtureReport.

Lemma C6_mixture_log_likelihood_witness :
  exists out old new pi0_A mu0_A var0_A pi1_A mu1_A var1_A,
    main (F:=R) Examples.old_rows Examples.seg_rows Examples.new_rows true
    = (out, Ok tt)
    /\ fit_mixture2 (A_samples new)
       = Ok ((pi0_A, mu0_A, var0_A), (pi1_A, mu1_A, var1_A))
    /\ nth_error out 16
       = Some (AvgLogLikelihood
                 (np_mean (A_loglkhd old))
                 (np_mean
                    (map (fun x =>
                            np_log
                              (f_add
                                 (f_mul pi0_A (norm_pdf x mu0_A (np_sqrt var0_A)))
                                 (f_mul pi1_A (norm_pdf x mu1_A (np_sqrt var1_A)))))
                         (A_samples new)))).
Proof.
  destruct (example_run true) as (out & Hmain).
  destruct (C6_mixture_log_likelihood (F:=R) _ _ _ _ Hmain)
    as (old & segmentations & new
        & pi0_A & mu0_A & var0_A & pi1_A & mu1_A & var1_A
        & pi0_T & mu0_T & var0_T & pi1_T & mu1_T & var1_T
        & _ & HfitA & _ & HA & _).
  exists out, old, new, pi0_A, mu0_A, var0_A, pi1_A, mu1_A, var1_A.
  repeat split; assumption.
Defined.

(** * Further properties *)

(** ** old_tsv_to_numpy, further *)

Section OldReader.

Context {F : Type} {builtins : Builtins F}.

Lemma py_float_ok_inv (v : option string) (x : F) :
  py_float v = Ok x -> exists s, v = Some s /\ float_str s = Some x.
Proof.
  unfold py_float. destruct v as [s|]; [|discriminate].
  destruct (float_str s) as [y|] eqn:E; [|discriminate].
  intros [= <-]. now exists s.
Qed.

Lemma py_float_converts (r : row) (key : string) (x : F) :
  py_float (row_get samples_headers r key) = Ok x ->
  converts_float r key /\ float_field r key = [x].
Proof.
  intros H. apply py_float_ok_inv in H. destruct H as (s & Hget & Hs).
  split; [now exists s, x|]. unfold float_field. now rewrite Hget, Hs.
Qed.

Lemma converts_float_py (r : row) (key : string) :
  converts_float (F:=F) r key ->
  exists x, py_float (row_get samples_headers r key) = Ok x.
Proof.
  intros (s & x & Hget & Hs). exists x. unfold py_float. now rewrite Hget, Hs.
Qed.

Lemma old_tsv_body_step (d d1 : old_data) (r : row) :
  old_tsv_body d r = Ok d1 ->
  let region := row_get samples_headers r "region" in
  (forall key, In key old_converted_fields -> converts_float (F:=F) r key)
  /\ S_loglkhd d1
     = S_loglkhd d
       ++ (if field_eqb region "START" then float_field r "s_llh" else [])
  /\ L_loglkhd d1
     = L_loglkhd d
       ++ (if field_eqb region "LEADER" then float_field r "l_llh" else [])
  /\ A_loglkhd d1
     = A_loglkhd d
       ++ (if field_eqb region "ADAPTER" then float_field r "a_llh" else [])
  /\ P_loglkhd d1
     = P_loglkhd d
       ++ (if field_eqb region "POLYA" then float_field r "p_llh" else [])
  /\ T_loglkhd d1
     = T_loglkhd d
       ++ (if field_eqb region "TRANSCRIPT" then float_field r "t_llh" else []).
Proof.
  unfold old_tsv_body. intros H.
  apply bind_ok_inv in H. destruct H as (s_llh & Hs & H).
  apply bind_ok_inv in H. destruct H as (l_llh & Hl & H).
  apply bind_ok_inv in H. destruct H as (a_llh & Ha & H).
  apply bind_ok_inv in H. destruct H as (p_llh & Hp & H).
  apply bind_ok_inv in H. destruct H as (t_llh & Ht & H).
  apply py_float_converts in Hs, Hl, Ha, Hp, Ht.
  destruct Hs as [Cs ->], Hl as [Cl ->], Ha as [Ca ->], Hp as [Cp ->],
    Ht as [Ct ->].
  cbv zeta. split.
  - unfold old_converted_fields. simpl.
    intros key [<- | [<- | [<- | [<- | [<- | []]]]]]; assumption.
  - revert H. destruct d as [dS dL dA dP dT].
    destruct (field_eqb (row_get samples_headers r "region") "START"),
      (field_eqb (row_get samples_headers r "region") "LEADER"),
      (field_eqb (row_get samples_headers r "region") "ADAPTER"),
      (field_eqb (row_get samples_headers r "region") "POLYA"),
      (field_eqb (row_get samples_headers r "region") "TRANSCRIPT");
      cbn; intros [= <-]; cbn; rewrite ?app_nil_r; repeat split; reflexivity.
Qed.

Lemma old_tsv_body_returns (d : old_data) (r : row) :
  (forall key, In key old_converted_fields -> converts_float (F:=F) r key) ->
  exists d1, old_tsv_body d r = Ok d1.
Proof.
  intros Hc. unfold old_tsv_body.
  destruct (converts_float_py r "s_llh") as [s ->]; [apply Hc; simpl; tauto|].
  destruct (converts_float_py r "l_llh") as [l ->]; [apply Hc; simpl; tauto|].
  destruct (converts_float_py r "a_llh") as [a ->]; [apply Hc; simpl; tauto|].
  destruct (converts_float_py r "p_llh") as [p ->]; [apply Hc; simpl; tauto|].
  destruct (converts_float_py r "t_llh") as [t ->]; [apply Hc; simpl; tauto|].
  cbn [bind]. eexists. reflexivity.
Qed.

Lemma old_tsv_loop_columns (rows : list row) :
  forall d d',
    for_rows old_tsv_body d rows = Ok d' ->
    S_loglkhd d' = S_loglkhd d ++ column_of_region "s_llh" "START" rows
    /\ L_loglkhd d' = L_loglkhd d ++ column_of_region "l_llh" "LEADER" rows
    /\ A_loglkhd d' = A_loglkhd d ++ column_of_region "a_llh" "ADAPTER" rows
    /\ P_loglkhd d' = P_loglkhd d ++ column_of_region "p_llh" "POLYA" rows
    /\ T_loglkhd d'
       = T_loglkhd d ++ column_of_region "t_llh" "TRANSCRIPT" rows.
Proof.
  induction rows as [|r rows IH]; intros d d' Hrun; simpl in Hrun.
  - injection Hrun as <-. unfold column_of_region. simpl.
    rewrite !app_nil_r. repeat split.
  - apply bind_ok_inv in Hrun. destruct Hrun as (d1 & Hbody & Hrest).
    apply old_tsv_body_step in Hbody. cbv zeta in Hbody.
    destruct Hbody as (_ & HS & HL & HA & HP & HT).
    destruct (IH _ _ Hrest) as (IS & IL & IA & IP & IT).
    rewrite IS, IL, IA, IP, IT, HS, HL, HA, HP, HT.
    unfold column_of_region. simpl. rewrite <- !app_assoc. repeat split.
Qed.

(** X1.  When [old_tsv_to_numpy] returns, each of its five arrays holds, in
    file order, the region's own log-likelihood column (s_llh for START,
    l_llh for LEADER, a_llh for ADAPTER, p_llh for POLYA, t_llh for
    TRANSCRIPT) of exactly the rows whose region field is that region's
    name; rows with any other region field, or none, contribute to no
    array. *)
Theorem X1_old_tsv_columns (rows : list row) (d : old_data (F:=F)) :
  old_tsv_to_numpy rows = Ok d ->
  S_loglkhd d = column_of_region "s_llh" "START" rows
  /\ L_loglkhd d = column_of_region "l_llh" "LEADER" rows
  /\ A_loglkhd d = column_of_region "a_llh" "ADAPTER" rows
  /\ P_loglkhd d = column_of_region "p_llh" "POLYA" rows
  /\ T_loglkhd d = column_of_region "t_llh" "TRANSCRIPT" rows.
Proof.
  intros Hrun. apply old_tsv_loop_columns in Hrun. exact Hrun.
Qed.

Lemma old_tsv_loop_returns_iff (rows : list row) :
  forall d,
    is_ok (for_rows old_tsv_body d rows) = true
    <-> forall r, In r rows ->
                  forall key, In key old_converted_fields ->
                              converts_float (F:=F) r key.
Proof.
  induction rows as [|r rows IH]; intros d; simpl.
  - split; [intros _ r [] | reflexivity].
  - destruct (old_tsv_body d r) as [d1|e] eqn:Hbody; simpl.
    + rewrite IH. apply old_tsv_body_step in Hbody. destruct Hbody as [Hc _].
      split.
      * intros H r' [<- | Hr']; [exact Hc | now apply H].
      * intros H r' Hr'. apply H. now right.
    + split; [discriminate|]. intros H.
      destruct (old_tsv_body_returns d r (H r (or_introl eq_refl))) as [d1 E].
      congruence.
Qed.

(** X2.  [old_tsv_to_numpy] returns exactly when, in every row, the five
    fields s_llh, l_llh, a_llh, p_llh and t_llh are present and accepted by
    [float]; in particular every row then has at least 12 fields, and the
    region field and the other columns play no part. *)
Theorem X2_old_tsv_returns_iff (rows : list row) :
  (is_ok (old_tsv_to_numpy (F:=F) rows) = true
   <-> forall r, In r rows ->
                 forall key, In key old_converted_fields ->
                             converts_float (F:=F) r key)
  /\ (is_ok (old_tsv_to_numpy (F:=F) rows) = true ->
      forall r, In r rows -> (12 <= List.length r)%nat).
Proof.
  split; [apply old_tsv_loop_returns_iff|].
  intros Hok r Hr.
  pose proof (proj1 (old_tsv_loop_returns_iff rows empty_old_data) Hok) as Hc.
  destruct (Hc r Hr "t_llh") as (s & x & Hget & _); [simpl; tauto|].
  assert (Hn : row_get samples_headers r "t_llh" = nth_error r 11)
    by reflexivity.
  rewrite Hn in Hget.
  assert (Hsome : nth_error r 11 <> None) by congruence.
  apply nth_error_Some in Hsome. lia.
Qed.

End OldReader.

Lemma X1_old_tsv_columns_witness :
  exists d,
    old_tsv_to_numpy (F:=R) Examples.old_rows = Ok d
    /\ S_loglkhd d = column_of_region "s_llh" "START" Examples.old_rows
    /\ T_loglkhd d = column_of_region "t_llh" "TRANSCRIPT" Examples.old_rows.
Proof.
  eassert (Hrun : old_tsv_to_numpy (F:=R) Examples.old_rows = Ok _)
    by (run_R; reflexivity).
  eexists. split; [exact Hrun|].
  destruct (X1_old_tsv_columns (F:=R) Examples.old_rows _ Hrun)
    as (HS & _ & _ & _ & HT).
  split; assumption.
Defined.

Lemma X2_old_tsv_returns_iff_witness :
  is_ok (old_tsv_to_numpy (F:=R) Examples.old_rows) = true
  /\ (12 <= List.length (Examples.sample_row "r1" "5" "80" "81" "-1" "START"))%nat.
Proof.
  assert (Hok : is_ok (old_tsv_to_numpy (F:=R) Examples.old_rows) = true)
    by (run_R; reflexivity).
  split; [exact Hok|].
  destruct (X2_old_tsv_returns_iff (F:=R) Examples.old_rows) as [_ H].
  apply (H Hok). simpl. now left.
Defined.

(** ** new_tsv_to_numpy, further *)

Section NewReader.

Context {F : Type} {builtins : Builtins F}.

Lemma py_int_ok_inv (v : option string) (z : Z) :
  py_int (F:=F) v = Ok z -> exists s, v = Some s /\ int_str (F:=F) s = Some z.
Proof.
  unfold py_int. destruct v as [s|]; [|discriminate].
  destruct (int_str s) as [y|] eqn:E; [|discriminate].
  intros [= <-]. now exists s.
Qed.

Lemma row_region_returns_iff (segmentations : segdict) (r : row) :
  is_ok (row_region (F:=F) segmentations r) = true
  <-> converts_float (F:=F) r "scaled_sample" /\ converts_int (F:=F) r "idx".
Proof.
  unfold row_region. split.
  - destruct (py_float (row_get samples_headers r "scaled_sample"))
      as [x|e] eqn:Hx; [|discriminate]. simpl.
    destruct (row_get samples_headers r "read_id") as [read|]; [|discriminate].
    destruct (py_int (row_get samples_headers r "idx")) as [i|e] eqn:Hi;
      [|discriminate].
    intros _. apply py_float_ok_inv in Hx. apply py_int_ok_inv in Hi.
    destruct Hx as (s & Hs & Hfs), Hi as (t & Ht & Hit).
    split; [now exists s, x | now exists t, i].
  - intros [(s & x & Hs & Hfs) (t & i & Ht & Hit)].
    destruct (scaled_sample_has_read_id r s Hs) as [read Hread].
    unfold py_float, py_int. rewrite Hs, Hfs, Hread, Ht, Hit. simpl.
    destruct (region_search_returns read i segmentations) as [label ->].
    reflexivity.
Qed.

Lemma new_tsv_body_step (segmentations : segdict) (d d1 : new_data) (r : row) :
  new_tsv_body segmentations d r = Ok d1 ->
  exists x z,
    row_region (F:=F) segmentations r = Ok (x, z)
    /\ S_samples d1 = S_samples d ++ (if z =? START then [x] else [])
    /\ L_samples d1 = L_samples d ++ (if z =? LEADER then [x] else [])
    /\ A_samples d1 = A_samples d ++ (if z =? ADAPTER then [x] else [])
    /\ P_samples d1 = P_samples d ++ (if z =? POLYA then [x] else [])
    /\ T_samples d1 = T_samples d ++ (if z =? TRANSCRIPT then [x] else []).
Proof.
  unfold new_tsv_body. intros H. apply bind_ok_inv in H.
  destruct H as ([x z] & Hreg & H). exists x, z. split; [exact Hreg|].
  revert H. unfold append_by_region, START, LEADER, ADAPTER, POLYA, TRANSCRIPT.
  destruct d as [dS dL dA dP dT]. cbn [fst snd].
  destruct (z =? 0), (z =? 1), (z =? 2), (z =? 3), (z =? 5);
    cbn; intros [= <-]; cbn; rewrite ?app_nil_r; repeat split; reflexivity.
Qed.

Lemma new_tsv_loop_samples (segmentations : segdict) (rows : list row) :
  forall d d',
    for_rows (new_tsv_body segmentations) d rows = Ok d' ->
    S_samples d' = S_samples d ++ samples_of_region segmentations START rows
    /\ L_samples d' = L_samples d ++ samples_of_region segmentations LEADER rows
    /\ A_samples d' = A_samples d ++ samples_of_region segmentations ADAPTER rows
    /\ P_samples d' = P_samples d ++ samples_of_region segmentations POLYA rows
    /\ T_samples d'
       = T_samples d ++ samples_of_region segmentations TRANSCRIPT rows.
Proof.
  induction rows as [|r rows IH]; intros d d' Hrun; simpl in Hrun.
  - injection Hrun as <-. unfold samples_of_region. simpl.
    rewrite !app_nil_r. repeat split.
  - apply bind_ok_inv in Hrun. destruct Hrun as (d1 & Hbody & Hrest).
    apply new_tsv_body_step in Hbody.
    destruct Hbody as (x & z & Hreg & HS & HL & HA & HP & HT).
    destruct (IH _ _ Hrest) as (IS & IL & IA & IP & IT).
    rewrite IS, IL, IA, IP, IT, HS, HL, HA, HP, HT.
    unfold samples_of_region. simpl. rewrite Hreg, <- !app_assoc.
    repeat split.
Qed.


Lemma new_tsv_loop_returns_iff (segmentations : segdict) (rows : list row) :
  forall d,
    is_ok (for_rows (new_tsv_body (F:=F) segmentations) d rows) = true
    <-> forall r, In r rows ->
                  converts_float (F:=F) r "scaled_sample"
                  /\ converts_int (F:=F) r "idx".
Proof.
  induction rows as [|r rows IH]; intros d; simpl.
  - split; [intros _ r [] | reflexivity].
  - pose proof (row_region_returns_iff segmentations r) as Hrow.
    unfold new_tsv_body at 1.
    destruct (row_region segmentations r) as [sr|e]; simpl.
    + rewrite IH. split.
      * intros H r' [<- | Hr']; [now apply Hrow | now apply H].
      * intros H r' Hr'. apply H. now right.
    + split; [discriminate|]. intros H.
      apply Hrow. apply H. now left.
Qed.

(** X4.  [new_tsv_to_numpy] returns exactly when every row has a
    scaled_sample that [float] accepts and an idx that [int] accepts; the
    segmentation dictionary and the rest of the row decide nothing about
    it (an unknown read is no error). *)
Theorem X4_new_tsv_returns_iff (rows : list row) (segmentations : segdict) :
  is_ok (new_tsv_to_numpy (F:=F) rows segmentations) = true
  <-> forall r, In r rows ->
                converts_float (F:=F) r "scaled_sample"
                /\ converts_int (F:=F) r "idx".
Proof. apply new_tsv_loop_returns_iff. Qed.

Lemma row_region_same_sample (segmentations : segdict) (r r' : row) :
  same_sample r r' ->
  row_region (F:=F) segmentations r = row_region segmentations r'.
Proof.
  intros (Hread & Hidx & Hscaled). unfold row_region.
  now rewrite Hread, Hidx, Hscaled.
Qed.

(** X5.  [new_tsv_to_numpy] reads only the read identifier, the index and
    the scaled sample of a row: two files whose rows agree on these three
    fields give the same result, whatever their region fields, raw samples
    and log-likelihood columns are. *)
Theorem X5_new_tsv_reads_three_fields
  (rows rows' : list row) (segmentations : segdict) :
  Forall2 same_sample rows rows' ->
  new_tsv_to_numpy (F:=F) rows segmentations
  = new_tsv_to_numpy rows' segmentations.
Proof.
  intros Hsame. unfold new_tsv_to_numpy. generalize (empty_new_data (F:=F)).
  induction Hsame as [|r r' rows rows' Hrow _ IH]; intros d; simpl.
  - reflexivity.
  - unfold new_tsv_body at 1 3.
    rewrite (row_region_same_sample segmentations r r' Hrow).
    destruct (row_region segmentations r') as [sr|e]; simpl;
      [apply IH | reflexivity].
Qed.

(** X6.  When no key of the segmentation dictionary starts with the read
    identifier of any row (for instance when the dictionary is empty),
    [new_tsv_to_numpy], if it returns, returns five empty arrays. *)
Theorem X6_new_tsv_unmatched_reads_empty
  (rows : list row) (segmentations : segdict) (d : new_data (F:=F)) :
  (forall r read,
      In r rows ->
      row_get samples_headers r "read_id" = Some read ->
      Forall (fun k => ~ is_prefix read k) (dict_keys segmentations)) ->
  new_tsv_to_numpy rows segmentations = Ok d ->
  d = empty_new_data.
Proof.
  intros Hunmatched Hrun.
  assert (Hnone : forall region,
             region <> UNKNOWN ->
             samples_of_region (F:=F) segmentations region rows = []).
  { intros region Hregion. unfold samples_of_region.
    clear Hrun. induction rows as [|r rows IH]; simpl; [reflexivity|].
    rewrite IH by (intros r' read Hr'; apply Hunmatched; now right).
    rewrite app_nil_r.
    destruct (row_region segmentations r) as [[x z]|e] eqn:Hreg;
      [|reflexivity].
    unfold row_region in Hreg.
    apply bind_ok_inv in Hreg. destruct Hreg as (x' & _ & Hreg).
    destruct (row_get samples_headers r "read_id") as [read|] eqn:Hread;
      [|discriminate].
    apply bind_ok_inv in Hreg. destruct Hreg as (i & _ & Hreg).
    apply bind_ok_inv in Hreg. destruct Hreg as (label & Hrs & [= _ <-]).
    rewrite (region_search_unmatched read segmentations) in Hrs
      by (apply (Hunmatched r read); [now left | exact Hread]).
    injection Hrs as <-.
    destruct (Z.eqb_spec UNKNOWN region); [congruence | reflexivity]. }
  apply new_tsv_loop_samples in Hrun.
  destruct Hrun as (HS & HL & HA & HP & HT). simpl in HS, HL, HA, HP, HT.
  rewrite Hnone in HS, HL, HA, HP, HT by (unfold UNKNOWN; discriminate).
  destruct d as [dS dL dA dP dT]. simpl in *. subst. reflexivity.
Qed.

End NewReader.


Lemma X5_new_tsv_reads_three_fields_witness :
  new_tsv_to_numpy (F:=R) Examples.new_rows Examples.two_reads
  = new_tsv_to_numpy MoreExamples.new_rows_relabelled Examples.two_reads.
Proof.
  apply X5_new_tsv_reads_three_fields.
  unfold Examples.new_rows, MoreExamples.new_rows_relabelled.
  repeat (constructor; [repeat split|]). constructor.
Defined.

Lemma X6_new_tsv_unmatched_reads_empty_witness :
  exists d,
    new_tsv_to_numpy (F:=R) Examples.new_rows [] = Ok d
    /\ d = empty_new_data.
Proof.
  eassert (Hrun : new_tsv_to_numpy (F:=R) Examples.new_rows [] = Ok _)
    by (run_R; reflexivity).
  eexists. split; [exact Hrun|].
  apply (X6_new_tsv_unmatched_reads_empty (F:=R) Examples.new_rows []);
    [|exact Hrun].
  intros r read _ _. constructor.
Defined.

(** ** make_segmentation_dict, further *)

Section SegmentationFile.

Context {F : Type} {builtins : Builtins F}.

Lemma existsb_eqb_keys (id : string) (d : segdict) :
  existsb (String.eqb id) (dict_keys d) = dict_mem id d.
Proof. reflexivity. Qed.

Lemma segmentation_body_seen (segments : segdict) (r : row) (id : string) :
  seg_read_id r = Some id ->
  dict_mem id segments = true ->
  segmentation_body (F:=F) segments r = Ok segments.
Proof.
  unfold segmentation_body, seg_read_id. intros -> ->. reflexivity.
Qed.

Lemma segmentation_body_fresh (segments : segdict) (r : row) (id : string) :
  seg_read_id r = Some id ->
  dict_mem id segments = false ->
  segmentation_body (F:=F) segments r
  = (seg <- row_segment r ;; Ok (segments ++ [(id, seg)])).
Proof.
  unfold segmentation_body, seg_read_id. intros -> Hmem. rewrite Hmem. simpl.
  destruct (row_segment r) as [seg|e]; simpl; [|reflexivity].
  rewrite dict_setitem_absent; [reflexivity|].
  now apply dict_mem_false_iff.
Qed.

Lemma segmentation_body_no_id (segments : segdict) (r : row) :
  seg_read_id r = None ->
  segmentation_body (F:=F) segments r = Raise TypeError.
Proof. unfold segmentation_body, seg_read_id. intros ->. reflexivity. Qed.

Lemma segmentation_loop_key_order (rows : list row) :
  forall segments result_,
    for_rows (segmentation_body (F:=F)) segments rows = Ok result_ ->
    exists ids,
      map seg_read_id rows = map Some ids
      /\ dict_keys result_
         = dict_keys segments ++ first_occurrences (dict_keys segments) ids.
Proof.
  induction rows as [|r rows IH]; intros segments result_ Hrun; simpl in Hrun.
  - injection Hrun as <-. exists []. simpl. now rewrite app_nil_r.
  - apply bind_ok_inv in Hrun. destruct Hrun as (s1 & Hbody & Hrest).
    destruct (seg_read_id r) as [id|] eqn:Hid;
      [|rewrite segmentation_body_no_id in Hbody by exact Hid; discriminate].
    destruct (dict_mem id segments) eqn:Hmem.
    + rewrite (segmentation_body_seen _ _ _ Hid Hmem) in Hbody.
      injection Hbody as <-.
      destruct (IH _ _ Hrest) as (ids & Hids & Hkeys).
      exists (id :: ids). simpl. rewrite Hid, Hids, existsb_eqb_keys, Hmem.
      split; [reflexivity | exact Hkeys].
    + rewrite (segmentation_body_fresh _ _ _ Hid Hmem) in Hbody.
      apply bind_ok_inv in Hbody. destruct Hbody as (seg & _ & [= <-]).
      destruct (IH _ _ Hrest) as (ids & Hids & Hkeys).
      exists (id :: ids). simpl. rewrite Hid, Hids, existsb_eqb_keys, Hmem.
      split; [reflexivity|].
      rewrite Hkeys, dict_keys_app. simpl. now rewrite <- app_assoc.
Qed.

(** X7.  The keys of the dictionary that [make_segmentation_dict] returns
    are the read identifiers of the file in the order of their first
    occurrence; this is the order in which [region_search] scans them. *)
Theorem X7_segmentation_key_order (rows : list row) (segments : segdict) :
  make_segmentation_dict (F:=F) rows = Ok segments ->
  exists ids,
    map seg_read_id rows = map Some ids
    /\ dict_keys segments = first_occurrences [] ids.
Proof.
  intros Hrun. apply segmentation_loop_key_order in Hrun. exact Hrun.
Qed.

Lemma first_row_with_unique (id : string) (rows : list row) (r1 r2 : row) :
  first_row_with id rows r1 -> first_row_with id rows r2 -> r1 = r2.
Proof.
  intros (b1 & a1 & -> & H1 & F1) (b2 & a2 & E & H2 & F2).
  revert b2 E F2. induction b1 as [|x b1 IH]; intros b2 E F2.
  - destruct b2 as [|y b2]; simpl in E.
    + now injection E.
    + injection E as Ehd _. exfalso. apply (F2 r1); [now left | exact H1].
  - destruct b2 as [|y b2]; simpl in E.
    + injection E as Ehd _. exfalso. apply (F1 r2); [now left | exact H2].
    + injection E as Ehd E.
      apply (IH (fun r' Hr' => F1 r' (or_intror Hr')) b2 E).
      intros r' Hr'. apply F2. now right.
Qed.





Lemma segmentation_loop_drop_seen (rows : list row) :
  forall segments,
    for_rows (segmentation_body (F:=F)) segments rows
    = for_rows segmentation_body segments
        (drop_seen (dict_keys segments) rows).
Proof.
  induction rows as [|r rows IH]; intros segments; simpl; [reflexivity|].
  destruct (seg_read_id r) as [id|] eqn:Hid.
  - rewrite existsb_eqb_keys. destruct (dict_mem id segments) eqn:Hmem.
    + rewrite (segmentation_body_seen _ _ _ Hid Hmem). simpl. apply IH.
    + simpl. rewrite (segmentation_body_fresh _ _ _ Hid Hmem).
      destruct (row_segment r) as [seg|e]; simpl; [|reflexivity].
      rewrite IH, dict_keys_app. reflexivity.
  - simpl. now rewrite (segmentation_body_no_id _ _ Hid).
Qed.

(** X9.  [make_segmentation_dict] gives the same result, dictionary or
    exception, on a file and on the file without every row whose read
    identifier occurs in an earlier row. *)
Theorem X9_segmentation_first_rows_only (rows : list row) :
  make_segmentation_dict (F:=F) rows
  = make_segmentation_dict (drop_seen [] rows).
Proof. apply (segmentation_loop_drop_seen rows []). Qed.

(** X10.  For a read identifier of the segmentation file that starts no
    other read identifier of the file, [region_search] on the dictionary
    built from the file classifies every sample index by the boundaries of
    the first row with that identifier. *)
Theorem X10_region_of_first_row
  (rows : list row) (segments : segdict) (id : string) (r : row)
  (seg : segment) :
  make_segmentation_dict (F:=F) rows = Ok segments ->
  first_row_with id rows r ->
  row_segment (F:=F) r = Ok seg ->
  (forall r' id',
      In r' rows -> seg_read_id r' = Some id' -> is_prefix id id' ->
      id' = id) ->
  forall i, region_search id i segments = Ok (region_of seg i).
Proof.
  intros Hrun Hfirst Hseg Hunique i.
  assert (Hwf0 : dict_wf []) by constructor.
  destruct (segmentation_loop_spec rows [] segments Hrun Hwf0)
    as (Hwf & Hkeys & Hvals).
  assert (Hin : In id (dict_keys segments)).
  { apply Hkeys. right. destruct Hfirst as (before & after & -> & Hid & _).
    exists r. split; [apply in_or_app; right; now left | exact Hid]. }
  destruct (dict_getitem_in_keys _ _ Hin) as (v & Hget).
  destruct (Hvals id v Hget) as [H | (_ & r' & Hfirst' & Hseg')];
    [discriminate|].
  rewrite <- (first_row_with_unique _ _ _ _ Hfirst Hfirst') in Hseg'.
  assert (v = seg) by congruence. subst v.
  destruct (in_split _ _ Hin) as (before & after & Hsplit).
  assert (Hlast : last_match id (dict_keys segments) id).
  { exists before, after. split; [exact Hsplit|].
    split; [apply is_prefix_refl|].
    apply Forall_forall. intros k Hk Hpre.
    assert (Hkin : In k (dict_keys segments)).
    { rewrite Hsplit. apply in_or_app. right. now right. }
    apply Hkeys in Hkin. destruct Hkin as [[] | (r'' & Hr'' & Hid'')].
    assert (k = id) by (apply (Hunique r'' k); assumption). subst k.
    unfold dict_wf in Hwf. rewrite Hsplit in Hwf.
    apply NoDup_remove_2 in Hwf. apply Hwf.
    apply in_or_app. now right. }
  rewrite (region_search_matched _ _ _ Hlast), Hget. reflexivity.
Qed.

End SegmentationFile.

Lemma X7_segmentation_key_order_witness :
  exists ids,
    map seg_read_id Examples.seg_rows = map Some ids
    /\ dict_keys Examples.two_reads = first_occurrences [] ids.
Proof.
  apply (X7_segmentation_key_order (F:=R) Examples.seg_rows Examples.two_reads).
  exact seg_rows_dict.
Defined.

Lemma X10_region_of_first_row_witness :
  region_search "r1" 15 Examples.two_reads
  = Ok (region_of Examples.seg_10_20_30_50 15).
Proof.
  apply (X10_region_of_first_row (F:=R) Examples.seg_rows Examples.two_reads
           "r1" (Examples.seg_row "r1" "10" "20" "30" "50")).
  - exact seg_rows_dict.
  - exists [], (tl Examples.seg_rows). repeat split. intros r' [].
  - unfold row_segment. simpl. rewrite !Rtrunc_IZR. reflexivity.
  - intros r' id' Hr' Hid' Hpre. simpl in Hr'.
    destruct Hr' as [<- | [<- | [<- | []]]]; injection Hid' as <-;
      first [reflexivity | vm_compute in Hpre; discriminate].
Defined.

(** ** region_search, further *)

Lemma region_of_monotone (seg : segment) (i j : Z) :
  i <= j -> region_of seg i <= region_of seg j.
Proof.
  intros Hij. unfold region_of. cbv zeta.
  repeat match goal with
         | |- context [?a <? ?b] => destruct (Z.ltb_spec a b); try lia
         | |- context [?a <=? ?b] => destruct (Z.leb_spec a b); try lia
         | |- context [?a >? ?b] =>
             rewrite (Z.gtb_ltb a b); destruct (Z.ltb_spec b a); try lia
         end.
Qed.

(** X11.  For one read identifier and one segmentation dictionary the
    label returned by [region_search] never decreases when the sample index
    grows, whatever the four boundaries are: along a read the regions come
    in the order START, LEADER, ADAPTER, POLYA, TRANSCRIPT. *)
Theorem X11_region_search_monotone
  (read_id : string) (segmentations : segdict) (i j : Z) :
  i <= j ->
  exists a b,
    region_search read_id i segmentations = Ok a
    /\ region_search read_id j segmentations = Ok b
    /\ a <= b.
Proof.
  intros Hij.
  destruct (find_read_key_cases read_id (dict_keys segmentations) None)
    as [[Hnone _] | (k & Hlast & _)].
  - exists UNKNOWN, UNKNOWN.
    rewrite !(region_search_unmatched _ _ Hnone). repeat split. lia.
  - rewrite !(region_search_matched _ _ _ Hlast).
    destruct (dict_getitem_in_keys _ _ (last_match_in _ _ _ Hlast)) as [seg ->].
    exists (region_of seg i), (region_of seg j). repeat split.
    now apply region_of_monotone.
Qed.

Lemma X11_region_search_monotone_witness :
  exists a b,
    region_search "r1" 25 Examples.two_reads = Ok a
    /\ region_search "r1" 40 Examples.two_reads = Ok b
    /\ a <= b.
Proof.
  apply (X11_region_search_monotone "r1" Examples.two_reads 25 40). lia.
Defined.

Lemma is_prefix_length (read_id k : string) :
  is_prefix read_id k -> (String.length read_id <= String.length k)%nat.
Proof.
  intros H. apply is_prefix_append in H. destruct H as (rest & ->).
  clear. induction read_id as [|c read_id IH]; simpl; lia.
Qed.

(** X12.  Matching goes one way only: a read identifier that is longer
    than every key of the dictionary (for instance a key followed by a
    suffix) matches no key, and [region_search] returns UNKNOWN for it at
    every sample index. *)
Theorem X12_longer_read_id_unknown
  (read_id : string) (segmentations : segdict) (i : Z) :
  (forall k, In k (dict_keys segmentations) ->
             (String.length k < String.length read_id)%nat) ->
  region_search read_id i segmentations = Ok UNKNOWN.
Proof.
  intros Hshort. apply region_search_unmatched.
  apply Forall_forall. intros k Hk Hpre.
  apply is_prefix_length in Hpre. specialize (Hshort k Hk). lia.
Qed.

Lemma X12_longer_read_id_unknown_witness :
  region_search "r1_extended" 15 Examples.two_reads = Ok UNKNOWN.
Proof.
  apply X12_longer_read_id_unknown.
  intros k [<- | [<- | []]]; simpl; lia.
Defined.

(** ** fit_gmm *)

Section MixtureFit.

Context {F : Type} {sklearn : Sklearn F}.

Lemma comprehension_ok {A B : Type} (f : A -> result B) (cs : list A) :
  forall bs,
    comprehension f cs = Ok bs ->
    List.length bs = List.length cs
    /\ forall i c, nth_error cs i = Some c ->
                   exists b, nth_error bs i = Some b /\ f c = Ok b.
Proof.
  induction cs as [|c cs IH]; intros bs H; simpl in H.
  - injection H as <-. split; [reflexivity|]. intros [|i] c'; discriminate.
  - apply bind_ok_inv in H. destruct H as (b & Hb & H).
    apply bind_ok_inv in H. destruct H as (bs' & Hbs' & [= <-]).
    destruct (IH _ Hbs') as [Hlen Hnth]. split; [simpl; lia|].
    intros [|i] c' Hc'; simpl in *.
    + injection Hc' as <-. now exists b.
    + now apply Hnth.
Qed.

Lemma getitem_ok_inv {A : Type} (xs : list A) (i : nat) (x : A) :
  getitem xs i = Ok x -> nth_error xs i = Some x.
Proof.
  unfold getitem. destruct (nth_error xs i); [intros [= ->]; reflexivity|].
  discriminate.
Qed.

(** X13.  When [fit_gmm] returns, it returns exactly [ncomponents] triples,
    and the triple of component c is (weights_[c], means_[c][0],
    covariances_[c][0][0]) of the fitted mixture; so with two components
    the unpacking of the result in [main] never fails: the two fits of
    [main] raise only what [fit_gmm] raises. *)
Theorem X13_fit_gmm_components
  (samples : list F) (ncomponents : nat) :
  (forall params,
      fit_gmm samples ncomponents = Ok params ->
      List.length params = ncomponents
      /\ exists gmm,
          gmm_fit ncomponents samples = Ok gmm
          /\ forall c,
              (c < ncomponents)%nat ->
              exists w m cv mrow cmat crow,
                nth_error params c = Some (w, m, cv)
                /\ nth_error (weights_ gmm) c = Some w
                /\ nth_error (means_ gmm) c = Some mrow
                /\ nth_error mrow 0 = Some m
                /\ nth_error (covariances_ gmm) c = Some cmat
                /\ nth_error cmat 0 = Some crow
                /\ nth_error crow 0 = Some cv)
  /\ (forall e,
         fit_mixture2 samples = Raise e -> fit_gmm samples 2 = Raise e).
Proof.
  split.
  - intros params H. unfold fit_gmm in H.
    apply bind_ok_inv in H. destruct H as (gmm & Hfit & H).
    apply comprehension_ok in H. destruct H as [Hlen Hnth].
    rewrite length_seq in Hlen. split; [exact Hlen|].
    exists gmm. split; [exact Hfit|]. intros c Hc.
    destruct (Hnth c c) as ([[w m] cv] & Hp & Hf).
    { rewrite nth_error_nth' with (d := O) by (rewrite length_seq; lia).
      rewrite seq_nth by lia. reflexivity. }
    apply bind_ok_inv in Hf. destruct Hf as (w' & Hw & Hf).
    apply bind_ok_inv in Hf. destruct Hf as (mrow & Hm & Hf).
    apply bind_ok_inv in Hf. destruct Hf as (m' & Hm0 & Hf).
    apply bind_ok_inv in Hf. destruct Hf as (cmat & Hc0 & Hf).
    apply bind_ok_inv in Hf. destruct Hf as (crow & Hc1 & Hf).
    apply bind_ok_inv in Hf. destruct Hf as (cv' & Hc2 & [= -> -> ->]).
    apply getitem_ok_inv in Hw, Hm, Hm0, Hc0, Hc1, Hc2.
    exists w, m, cv, mrow, cmat, crow. repeat split; assumption.
  - intros e. unfold fit_mixture2.
    destruct (fit_gmm samples 2) as [params|e'] eqn:Hfit; simpl;
      [|intros [= ->]; reflexivity].
    unfold fit_gmm in Hfit.
    apply bind_ok_inv in Hfit. destruct Hfit as (gmm & _ & H).
    apply comprehension_ok in H. destruct H as [Hlen _]. simpl in Hlen.
    destruct params as [|c0 [|c1 [|c2 params]]]; simpl in Hlen;
      try discriminate; try lia.
Qed.

End MixtureFit.

Lemma X13_fit_gmm_components_witness :
  exists params,
    fit_gmm (F:=R) [101%R; 103%R] 2 = Ok params
    /\ List.length params = 2%nat.
Proof.
  destruct (X13_fit_gmm_components (F:=R) [101%R; 103%R] 2) as [H _].
  eassert (Hfit : fit_gmm (F:=R) [101%R; 103%R] 2 = Ok _)
    by (run_R; reflexivity).
  eexists. split; [exact Hfit|]. now apply H in Hfit.
Defined.

(** ** main, further *)

Section MainFurther.

Context {F : Type} {builtins : Builtins F} {numeric : Numeric F}
        {sklearn : Sklearn F}.

Lemma load_ok_inv (old_rows seg_rows new_rows : list row)
  (old : old_data) (segmentations : segdict) (new : new_data) :
  load old_rows seg_rows new_rows = Ok (old, segmentations, new) ->
  old_tsv_to_numpy old_rows = Ok old
  /\ make_segmentation_dict (F:=F) seg_rows = Ok segmentations
  /\ new_tsv_to_numpy new_rows segmentations = Ok new.
Proof.
  unfold load. intros H.
  apply bind_ok_inv in H. destruct H as (old' & Hold & H).
  apply bind_ok_inv in H. destruct H as (segs' & Hseg & H).
  apply bind_ok_inv in H. destruct H as (new' & Hnew & [= <- <- <-]).
  repeat split; assumption.
Qed.

(** X14.  All five fits come before the first parameter line: when the
    files load and the mixture fit of ADAPTER, or after it that of
    TRANSCRIPT, raises, [main] ends with that exception having printed the
    three progress messages only, and no parameter line, not even those of
    START and LEADER. *)
Theorem X14_fit_failure_prints_no_parameters
  (old_rows seg_rows new_rows : list row) (benchmark : bool)
  (old : old_data) (segmentations : segdict) (new : new_data) (e : exn) :
  load old_rows seg_rows new_rows = Ok (old, segmentations, new) ->
  fit_mixture2 (A_samples new) = Raise e
  \/ (is_ok (fit_mixture2 (A_samples new)) = true
      /\ fit_mixture2 (T_samples new) = Raise e) ->
  main old_rows seg_rows new_rows benchmark = (progress_lines, Raise e).
Proof.
  intros Hload Hfit. apply load_ok_inv in Hload.
  destruct Hload as (Hold & Hseg & Hnew).
  rewrite main_cases, Hold, Hseg, Hnew.
  destruct Hfit as [HA | [HA HT]].
  - now rewrite HA.
  - destruct (fit_mixture2 (A_samples new)); [|discriminate].
    now rewrite HT.
Qed.

End MainFurther.

Lemma X14_fit_failure_prints_no_parameters_witness :
  main (F:=R) Examples.old_rows Examples.seg_rows [] true
  = (progress_lines, Raise ValueError).
Proof.
  eassert (Hold : old_tsv_to_numpy (F:=R) Examples.old_rows = Ok _)
    by (run_R; reflexivity).
  eapply (X14_fit_failure_prints_no_parameters (F:=R)
            Examples.old_rows Examples.seg_rows [] true
            _ Examples.two_reads empty_new_data ValueError).
  - unfold load. rewrite Hold, seg_rows_dict. reflexivity.
  - left. reflexivity.
Defined.


